(** * StockPlay: a shallow embedding of pyircbot's stock trading module

    The development follows [src/pyircbot/modules/StockPlay.py].  The five
    sqlite tables become fields of a [world] record, the methods of the
    [StockPlay] class become computations in a small state-and-exception
    monad, and an iteration of each of the two background threads and a
    call of each command handler become the events of a transition
    function.

    Modelling conventions.
    - Python [int] is [Z]; [Decimal] is an exact rational [Q].  The
      28-digit context rounding of [Decimal] division and the non-finite
      decimals (NaN, Infinity) are not modelled.
    - [str] is [string], read as ASCII text: for a string of ASCII
      characters [len] is [String.length] and [str.upper] is [Py.upper].
      Text outside ASCII, whose upper-casing can change its length, is
      outside the model; statements about the case or the length of a
      string taken from a command say [Py.is_ascii] of it.
    - A table with a primary key that is only read by key is a [gmap];
      the trade log and the balance history are lists of rows in insertion
      order, the history's primary key being checked on INSERT.
    - [time()] is the field [now] of the environment of a step, read as an
      integer number of seconds; the day string computed by
      [record_nightly_balances] is the field [today].
    - The HTTP request of [fetch_priceinfo] is the field [upstream] of the
      environment; every request is recorded in the ghost field
      [fetchlog] of the world.
    - [act_PRIVMSG] appends to [outbox]; the text of a message is kept as a
      constructor of [text] holding the arguments of the format string.
    - Logging and [traceback.print_exc] have no effect on the model. *)

From Stdlib Require Import ZArith QArith Qround Qabs Lia Lqa.
From Stdlib Require Import Ascii String Sorting.Sorted.
From stdpp Require Import base option list strings gmap fin_maps.

Local Open Scope string_scope.
Local Open Scope list_scope.
Local Open Scope Z_scope.

(** ** Python values used by the module *)

Module Py.

(** The characters of ASCII, to which the model of [len] and of
    [str.upper] is faithful. *)
Definition is_ascii_char (c : ascii) : bool := (nat_of_ascii c <? 128)%nat.

Fixpoint is_ascii (s : string) : bool :=
  match s with
  | EmptyString => true
  | String c r => is_ascii_char c && is_ascii r
  end.

(** [str.upper] on ASCII text. *)
Definition upper_ascii (c : ascii) : ascii :=
  let n := nat_of_ascii c in
  if ((97 <=? n)%nat && (n <=? 122)%nat)%bool then ascii_of_nat (n - 32) else c.

Fixpoint upper (s : string) : string :=
  match s with
  | EmptyString => EmptyString
  | String c r => String (upper_ascii c) (upper r)
  end.

(** [s[n:]] *)
Fixpoint drop (n : nat) (s : string) : string :=
  match n, s with
  | O, _ => s
  | S _, EmptyString => EmptyString
  | S m, String _ r => drop m r
  end.

(** [s.startswith(p)] *)
Fixpoint startswith (p s : string) : bool :=
  match p, s with
  | EmptyString, _ => true
  | String a p', String b s' => if Ascii.eqb a b then startswith p' s' else false
  | String _ _, EmptyString => false
  end.

Definition is_digit (c : ascii) : bool :=
  let n := nat_of_ascii c in ((48 <=? n)%nat && (n <=? 57)%nat)%bool.

Definition digit_val (c : ascii) : Z := Z.of_nat (nat_of_ascii c - 48).

(** Reads a run of decimal digits, most significant first. *)
Fixpoint digits_val (acc : Z) (s : string) : option Z :=
  match s with
  | EmptyString => Some acc
  | String c r => if is_digit c then digits_val (10 * acc + digit_val c) r else None
  end.

Definition unsigned_int (s : string) : option Z :=
  match s with
  | EmptyString => None
  | _ => digits_val 0 s
  end.

Definition split_sign (s : string) : bool * string :=
  match s with
  | String "-" r => (true, r)
  | String "+" r => (false, r)
  | _ => (false, s)
  end.

(** [int(s)] for an optional sign followed by ASCII digits; [None] stands
    for [ValueError]. *)
Definition int_of_str (s : string) : option Z :=
  let '(neg, r) := split_sign s in
  n ← unsigned_int r;
  Some (if neg then - n else n).

(** Splits at the first dot. *)
Fixpoint split_dot (s : string) : string * option string :=
  match s with
  | EmptyString => (EmptyString, None)
  | String "." r => (EmptyString, Some r)
  | String c r => let '(a, b) := split_dot r in (String c a, b)
  end.

(** [Decimal(s)] for an optional sign, digits, and an optional fraction
    ([105.6700], [-3], [.5], [7.]); [None] stands for
    [decimal.InvalidOperation]. *)
Definition Decimal (s : string) : option Q :=
  let '(neg, r) := split_sign s in
  let '(ip, fp) := split_dot r in
  let fs := default EmptyString fp in
  if (String.length ip + String.length fs =? 0)%nat then None else
  i ← digits_val 0 ip;
  f ← digits_val 0 fs;
  let den := Pos.pow 10 (Pos.of_succ_nat (String.length fs)) in
  let num := i * Zpos den + 10 * f in
  Some (Qmake (if neg then - num else num) den).

(** [math.ceil] of a decimal. *)
Definition ceil (q : Q) : Z := Qceiling q.

(** [int(d)] of a decimal: truncation towards zero. *)
Definition int_of_dec (q : Q) : Z :=
  if Qle_bool 0 q then Qfloor q else Qceiling q.

End Py.

(** ** Data model *)

(** The exceptions the module can meet. *)
Inductive exn :=
| TypeError | KeyError | AttributeError | AssertionError | IndexError
| ValueError | InvalidOperation | IntegrityError | RequestError.

Inductive res (A : Type) :=
| Ok (a : A)
| Raise (x : exn).
Arguments Ok {A} a.
Arguments Raise {A} x.

(** What [requests.get(...).json()] yields: an exception (timeout,
    transport error, a body that is not JSON), or a JSON object of which
    only the member ["Global Quote"] is read ([None] when that key is
    missing); the member is an object given by its items in order. *)
Inductive response :=
| HttpError
| Body (global_quote : option (list (string * string))).

Record env := {
  now : Z;
  today : string;
  upstream : string → response
}.

Record config := {
  startbalance : Z;
  tcachesecs : Z;
  rcachesecs : Z
}.

(** A value of the dictionary returned by [get_priceinfo_cached]. *)
Inductive value :=
| VDec (d : Q)
| VStr (s : string)
| VNone.

(** A row of [stockplay_trades]. *)
Record trade_row := {
  tr_nick : string;
  tr_time : Z;
  tr_type : string;
  tr_symbol : string;
  tr_count : Z;
  tr_price : Z
}.

(** A row of [stockplay_balance_history]. *)
Record hist_row := {
  h_nick : string;
  h_day : string;
  h_cents : Z
}.

(** The namedtuple [Trade]. *)
Record Trade := {
  nick : string;
  buy : bool;
  symbol : string;
  amount : Z;
  replyto : string
}.

(** An item of [asyncq]. *)
Inductive queued :=
| QTrade (t : Trade)
| QPortReport (lookup sender replyto : string) (full : bool).

(** A tuple of [build_report]'s holdings list:
    (symbol, count, price, avgbuy, change on avgbuy). *)
Record holding_line := {
  hl_symbol : string;
  hl_count : Z;
  hl_symprice : Q;
  hl_avgbuy : Q;
  hl_buychange : Q
}.

(** The dictionary returned by [build_report]. *)
Record report := {
  r_cash : Q;
  r_holdings : list holding_line;
  r_holding_value : Q;
  r_24hgain : Q;
  r_24hpct : Q
}.

(** The messages of the module, each named after its format string. *)
Inductive text :=
| TAborted (nick : string)
    (* "{}: invalid symbol or api failure, trade aborted!" *)
| TInvalidSymbol (nick symbol : string)
    (* "{}: invalid symbol '{}'" *)
| TCantAfford (nick : string) (price_rounded : Z)
    (* "{}: you can't afford {}." *)
| TNotThatMany (nick : string)
    (* "{}: you don't have that many." *)
| TTraded (nick : string) (buy : bool) (amount : Z) (symbol : string)
          (price_rounded nickbal : Z)
    (* "{}: {} {} {} for {}. cash: {}" *)
| TReport (sender lookup : string) (cash holding_value total gain pct : Q)
    (* "{}: {} cash: {} stock value: ~{} total: ~{} (24h {})" *)
| TReportLine (sender : string) (line : holding_line).
    (* "{}: {}" with a line of the table *)

Record privmsg := {
  dest : string;
  body : text
}.

Record world := {
  balances : gmap string Z;                      (* stockplay_balances *)
  holdings : gmap (string * string) Z;           (* stockplay_holdings *)
  trades : list trade_row;                       (* stockplay_trades *)
  prices : gmap string (Z * gmap string string); (* stockplay_prices *)
  balance_history : list hist_row;               (* stockplay_balance_history *)
  task_time : Z;                                 (* self.task_time *)
  asyncq : list queued;                          (* self.asyncq *)
  outbox : list privmsg;                         (* messages sent *)
  fetchlog : list string                         (* upstream requests made *)
}.

Definition with_balances (f : gmap string Z → gmap string Z) (w : world) : world :=
  {| balances := f (balances w); holdings := holdings w; trades := trades w;
     prices := prices w; balance_history := balance_history w;
     task_time := task_time w; asyncq := asyncq w; outbox := outbox w;
     fetchlog := fetchlog w |}.

Definition with_holdings (f : gmap (string * string) Z → gmap (string * string) Z)
    (w : world) : world :=
  {| balances := balances w; holdings := f (holdings w); trades := trades w;
     prices := prices w; balance_history := balance_history w;
     task_time := task_time w; asyncq := asyncq w; outbox := outbox w;
     fetchlog := fetchlog w |}.

Definition with_trades (f : list trade_row → list trade_row) (w : world) : world :=
  {| balances := balances w; holdings := holdings w; trades := f (trades w);
     prices := prices w; balance_history := balance_history w;
     task_time := task_time w; asyncq := asyncq w; outbox := outbox w;
     fetchlog := fetchlog w |}.

Definition with_prices
    (f : gmap string (Z * gmap string string) → gmap string (Z * gmap string string))
    (w : world) : world :=
  {| balances := balances w; holdings := holdings w; trades := trades w;
     prices := f (prices w); balance_history := balance_history w;
     task_time := task_time w; asyncq := asyncq w; outbox := outbox w;
     fetchlog := fetchlog w |}.

Definition with_history (f : list hist_row → list hist_row) (w : world) : world :=
  {| balances := balances w; holdings := holdings w; trades := trades w;
     prices := prices w; balance_history := f (balance_history w);
     task_time := task_time w; asyncq := asyncq w; outbox := outbox w;
     fetchlog := fetchlog w |}.

Definition with_task_time (t : Z) (w : world) : world :=
  {| balances := balances w; holdings := holdings w; trades := trades w;
     prices := prices w; balance_history := balance_history w;
     task_time := t; asyncq := asyncq w; outbox := outbox w;
     fetchlog := fetchlog w |}.

Definition with_asyncq (f : list queued → list queued) (w : world) : world :=
  {| balances := balances w; holdings := holdings w; trades := trades w;
     prices := prices w; balance_history := balance_history w;
     task_time := task_time w; asyncq := f (asyncq w); outbox := outbox w;
     fetchlog := fetchlog w |}.

Definition with_outbox (f : list privmsg → list privmsg) (w : world) : world :=
  {| balances := balances w; holdings := holdings w; trades := trades w;
     prices := prices w; balance_history := balance_history w;
     task_time := task_time w; asyncq := asyncq w; outbox := f (outbox w);
     fetchlog := fetchlog w |}.

Definition with_fetchlog (f : list string → list string) (w : world) : world :=
  {| balances := balances w; holdings := holdings w; trades := trades w;
     prices := prices w; balance_history := balance_history w;
     task_time := task_time w; asyncq := asyncq w; outbox := outbox w;
     fetchlog := f (fetchlog w) |}.

(** The rows the serial executor owns: balances (the dust account is one
    of them), holdings and the trade log. *)
Definition ledger (w : world) : gmap string Z * gmap (string * string) Z * list trade_row :=
  (balances w, holdings w, trades w).

(** ** Computations: environment, state, exceptions

    An exception leaves the writes made before it in place: the store has
    no transaction. *)

Definition M (A : Type) : Type := env → world → res A * world.

Definition ret {A} (a : A) : M A := λ _ w, (Ok a, w).

Definition bind {A B} (m : M A) (k : A → M B) : M B :=
  λ e w, match m e w with
         | (Ok a, w') => k a e w'
         | (Raise x, w') => (Raise x, w')
         end.

Definition raise {A} (x : exn) : M A := λ _ w, (Raise x, w).

(** [try: m except Exception: h] *)
Definition try_except {A} (m : M A) (h : M A) : M A :=
  λ e w, match m e w with
         | (Ok a, w') => (Ok a, w')
         | (Raise _, w') => h e w'
         end.

Definition ask : M env := λ e w, (Ok e, w).
Definition get : M world := λ _ w, (Ok w, w).
Definition modify (f : world → world) : M unit := λ _ w, (Ok tt, f w).

Definition lift_res {A} (r : res A) : M A := λ _ w, (r, w).

Notation "x <- c ;; k" := (bind c (λ x, k))
  (at level 100, c at next level, right associativity).
Notation "c ;;; k" := (bind c (λ _, k))
  (at level 100, right associativity).

(** [for x in xs: body x], stopped by the first exception. *)
Fixpoint for_each {A} (xs : list A) (body : A → M unit) : M unit :=
  match xs with
  | [] => ret tt
  | x :: rest => body x ;;; for_each rest body
  end.

(** [self.bot.act_PRIVMSG(dest, text)] *)
Definition act_PRIVMSG (d : string) (t : text) : M unit :=
  modify (with_outbox (λ o, o ++ [{| dest := d; body := t |}])).

(** ** Module-level definitions *)

Definition DUSTACCT : string := "#dust".

(** A stable insertion sort: the rows of an [ORDER BY], and [list.sort]. *)
Fixpoint insert_by {A} (le : A → A → bool) (x : A) (l : list A) : list A :=
  match l with
  | [] => [x]
  | y :: r => if le x y then x :: y :: r else y :: insert_by le x r
  end.

Definition sort_by {A} (le : A → A → bool) (l : list A) : list A :=
  foldr (insert_by le) [] l.

(** [RE_SYMBOL.match(s)] for [^([A-Z\-]+)$]: one or more capitals or
    dashes, up to the end of the string or to a final newline. *)
Definition symbol_char (c : ascii) : bool :=
  let n := nat_of_ascii c in
  (((65 <=? n)%nat && (n <=? 90)%nat) || (n =? 45)%nat)%bool.

Fixpoint symbol_chars (s : string) : bool :=
  match s with
  | EmptyString => true
  | String "010" EmptyString => true
  | String c r => symbol_char c && symbol_chars r
  end.

Definition RE_SYMBOL_match (s : string) : bool :=
  match s with
  | String c r => symbol_char c && symbol_chars r
  | EmptyString => false
  end.

Definition calc_gain (start end_ : Q) : Q :=
  if Qeq_bool start 0 then 0%Q else ((end_ - start) / start)%Q.

(** The keys kept by [fetch_priceinfo] and the fields parsed to a decimal
    by [get_priceinfo_cached]. *)
Definition keys : list string :=
  ["symbol"; "open"; "high"; "low"; "price"; "volume";
   "latest trading day"; "previous close"; "change"; "change percent"].

Definition numfields : list string :=
  ["open"; "high"; "low"; "price"; "volume"; "change"; "previous close"].

(** [{k[4:]: v for k, v in data.items() if k[4:] in keys}] *)
Definition reformat (data : list (string * string)) : gmap string string :=
  foldl (λ acc kv, if bool_decide (Py.drop 4 kv.1 ∈ keys)
                   then <[Py.drop 4 kv.1 := kv.2]> acc else acc) ∅ data.

Definition numfield_conv (k v : string) : option value :=
  if bool_decide (k ∈ numfields) then VDec <$> Py.Decimal v else Some (VStr v).

(** [{k: Decimal(v) if k in numfields else v for k, v in cached.items()}] *)
Definition decimalize (cached : gmap string string) : res (gmap string value) :=
  if bool_decide (map_Forall (λ k v, is_Some (numfield_conv k v)) cached)
  then Ok (map_imap numfield_conv cached)
  else Raise InvalidOperation.

(** Truth value of [None] or of a dictionary. *)
Definition truthy (d : option (gmap string string)) : bool :=
  match d with
  | None => false
  | Some m => bool_decide (m ≠ ∅)
  end.

(** [thresh or 60] *)
Definition or_60 (thresh : Z) : Z := if thresh =? 0 then 60 else thresh.

(** A message as the command handlers read it: [message.prefix.nick] and
    [message.args[0]]. *)
Record message := {
  prefix_nick : string;
  args0 : string
}.

Definition time_desc (a b : trade_row) : bool := tr_time b <=? tr_time a.
Definition count_desc (a b : string * string * Z) : bool := b.2 <=? a.2.
Definition time_asc (a b : string * (Z * gmap string string)) : bool := a.2.1 <=? b.2.1.
Definition symbol_asc (a b : holding_line) : bool := String.leb (hl_symbol a) (hl_symbol b).
Definition day_desc (a b : hist_row) : bool := String.leb (h_day b) (h_day a).

(** [SELECT * FROM stockplay_trades WHERE nick=? AND symbol=? ORDER BY time DESC] *)
Definition select_trades (n s : string) (log : list trade_row) : list trade_row :=
  sort_by time_desc
    (filter (λ r, tr_nick r = n ∧ tr_symbol r = s) log).

(** The loop of [calc_user_avgbuy], with its [break]. *)
Fixpoint backtrack (target_count : Z) (rows : list trade_row) (count spent : Z) : Z * Z :=
  match rows with
  | [] => (count, spent)
  | row :: rest =>
      let sign := if String.eqb (tr_type row) "buy" then 1 else -1 in
      let count := count + tr_count row * sign in
      let spent := spent + tr_price row * sign in
      if count =? target_count then (count, spent)
      else backtrack target_count rest count spent
  end.

(** [SELECT * FROM stockplay_holdings WHERE count>0 AND nick=? ORDER BY count DESC] *)
Definition select_holdings (n : string) (h : gmap (string * string) Z)
    : list (string * string * Z) :=
  sort_by count_desc
    (filter (λ r, 0 < r.2 ∧ r.1.1 = n) (map_to_list h)).

(** [SELECT symbol FROM stockplay_holdings WHERE count>0] *)
Definition held_symbols (h : gmap (string * string) Z) : list string :=
  (λ r, r.1.2) <$> filter (λ r : string * string * Z, 0 < r.2) (map_to_list h).

(** [SELECT * FROM stockplay_prices WHERE symbol in (...) ORDER BY time ASC LIMIT 1] *)
Definition select_oldest_held (w : world) : option (string * (Z * gmap string string)) :=
  head (sort_by time_asc
          (filter (λ r, r.1 ∈ held_symbols (holdings w)) (map_to_list (prices w)))).

(** [SELECT * FROM stockplay_balances WHERE nick NOT IN
     (SELECT nick FROM stockplay_balance_history WHERE day=?)] *)
Definition select_unrecorded (day : string) (w : world) : list (string * Z) :=
  filter (λ r, r.1 ∉ (h_nick <$> filter (λ h, h_day h = day) (balance_history w)))
         (map_to_list (balances w)).

Section StockPlay.

Variable cfg : config.

(** *** Ledger store *)

Definition get_bal (n : string) : M Z :=
  w <- get ;;
  match balances w !! n with
  | Some cents => ret cents
  | None => raise TypeError          (* fetchone() is None *)
  end.

Definition set_bal (n : string) (amt : Z) : M unit :=
  modify (with_balances <[n := amt]>).

Definition get_holding (n s : string) : M Z :=
  if bool_decide (s = Py.upper s) then
    w <- get ;;
    ret (default 0 (holdings w !! (n, s)))
  else raise AssertionError.

Definition set_holding (n s : string) (count : Z) : M unit :=
  modify (with_holdings <[(n, s) := count]>).

Definition log_trade (n : string) (t : Z) (type s : string) (count price : Z) : M unit :=
  modify (with_trades (λ l, l ++ [{| tr_nick := n; tr_time := t; tr_type := type;
                                      tr_symbol := s; tr_count := count;
                                      tr_price := price |}])).

Definition nick_exists (name : string) : M bool :=
  w <- get ;;
  ret (bool_decide (is_Some (balances w !! name))).

Definition check_nick (n : string) : M unit :=
  ex <- nick_exists n ;;
  if ex then ret tt else set_bal n (startbalance cfg * 100).

(** [ORDER BY DAY DESC LIMIT 1] over the rows of the nick. *)
Definition get_latest_hist_bal (n : string) : M (option hist_row) :=
  w <- get ;;
  ret (head (sort_by day_desc (filter (λ h, h_nick h = n) (balance_history w)))).

(** [INSERT INTO stockplay_balance_history]; the primary key is
    (nick, day). *)
Definition insert_history (n day : string) (total : Z) : M unit :=
  w <- get ;;
  if bool_decide (Exists (λ h, h_nick h = n ∧ h_day h = day) (balance_history w))
  then raise IntegrityError
  else modify (with_history (λ l, l ++ [{| h_nick := n; h_day := day; h_cents := total |}])).

(** *** Price cache *)

Definition _set_cache_priceinfo (s : string) (data : gmap string string) : M unit :=
  e <- ask ;;
  modify (with_prices <[s := (now e, data)]>).

Definition _get_cache_priceinfo (s : string) (thresh : Z) : M (option (gmap string string)) :=
  w <- get ;;
  e <- ask ;;
  match prices w !! s with
  | None => ret None
  | Some (t, data) => if thresh <? now e - t then ret None else ret (Some data)
  end.

Definition fetch_priceinfo (s : string) : M (option (gmap string string)) :=
  modify (with_fetchlog (λ l, l ++ [s])) ;;;
  e <- ask ;;
  match upstream e s with
  | HttpError => raise RequestError
  | Body None => raise KeyError          (* data["Global Quote"] *)
  | Body (Some []) => ret None
  | Body (Some data) => ret (Some (reformat data))
  end.

Definition get_priceinfo_cached (s : string) (thresh : Z) : M (gmap string value) :=
  cached <- _get_cache_priceinfo s thresh ;;
  cached <- (if truthy cached then ret cached else
               fetched <- fetch_priceinfo s ;;
               match fetched with
               | Some data =>
                   if truthy fetched then _set_cache_priceinfo s data ;;; ret fetched
                   else ret fetched
               | None => ret fetched
               end) ;;
  match cached with
  | None => raise AttributeError         (* None.items() *)
  | Some d => lift_res (decimalize d)
  end.

(** Every caller passes [thresh]; the default [None] is never used. *)
Definition get_price (s : string) (thresh : Z) : M value :=
  info <- get_priceinfo_cached s (or_60 thresh) ;;
  match info !! "price" with
  | Some v => ret v
  | None => raise KeyError
  end.

(** *** Cost basis *)

Definition calc_user_avgbuy (n s : string) : M Q :=
  target_count <- get_holding n s ;;
  w <- get ;;
  let '(count, spent) := backtrack target_count (select_trades n s (trades w)) 0 0 in
  if count =? 0 then ret 0%Q
  else ret (inject_Z spent / 100 / inject_Z count)%Q.

(** *** Trade engine *)

Definition do_trade (trade : Trade) : M unit :=
  got <- try_except (v <- get_price (symbol trade) (tcachesecs cfg) ;; ret (Some v))
                    (act_PRIVMSG (replyto trade) (TAborted (nick trade)) ;;; ret None) ;;
  match got with
  | None => ret tt
  | Some VNone =>
      act_PRIVMSG (replyto trade) (TInvalidSymbol (nick trade) (symbol trade))
  | Some (VStr _) => raise TypeError     (* ceil of a str *)
  | Some (VDec symprice) =>
      let dprice := (symprice * inject_Z (amount trade))%Q in
      let price_rounded := Py.ceil (dprice * 100) in
      let dust := Qabs (dprice * 100 - inject_Z price_rounded) in
      nickbal <- get_bal (nick trade) ;;
      count <- get_holding (nick trade) (symbol trade) ;;
      if buy trade && (nickbal <? price_rounded) then
        act_PRIVMSG (replyto trade) (TCantAfford (nick trade) price_rounded)
      else if negb (buy trade) && (count <? amount trade) then
        act_PRIVMSG (replyto trade) (TNotThatMany (nick trade))
      else
        let nickbal := if buy trade then nickbal - price_rounded
                       else nickbal + price_rounded in
        let count := if buy trade then count + amount trade
                     else count - amount trade in
        set_bal (nick trade) nickbal ;;;
        set_holding (nick trade) (symbol trade) count ;;;
        dustbal <- get_bal DUSTACCT ;;
        set_bal DUSTACCT (dustbal + Py.int_of_dec (dust * 100)) ;;;
        act_PRIVMSG (replyto trade)
          (TTraded (nick trade) (buy trade) (amount trade) (symbol trade)
                   price_rounded nickbal) ;;;
        e <- ask ;;
        log_trade (nick trade) (now e) (if buy trade then "buy" else "sell")
                  (symbol trade) (amount trade) price_rounded
  end.

(** *** Report builder *)

(** [Decimal(v)] of a value of the price dictionary. *)
Definition to_decimal (v : value) : M Q :=
  match v with
  | VDec d => ret d
  | VStr s => match Py.Decimal s with
              | Some d => ret d
              | None => raise InvalidOperation
              end
  | VNone => raise TypeError
  end.

(** The loop of [build_report] over the rows of the nick's holdings. *)
Fixpoint report_rows (n : string) (rows : list (string * string * Z))
    (holding_value : Q) (symbol_count : list holding_line)
    : M (Q * list holding_line) :=
  match rows with
  | [] => ret (holding_value, symbol_count)
  | row :: rest =>
      v <- get_price row.1.2 (rcachesecs cfg) ;;
      symprice <- to_decimal v ;;
      let holding_value := (holding_value + symprice * inject_Z row.2)%Q in
      avgbuy <- calc_user_avgbuy n row.1.2 ;;
      report_rows n rest holding_value
        (symbol_count ++ [{| hl_symbol := row.1.2; hl_count := row.2;
                             hl_symprice := symprice; hl_avgbuy := avgbuy;
                             hl_buychange := calc_gain avgbuy symprice |}])
  end.

Definition build_report (n : string) : M report :=
  bal <- get_bal n ;;
  let cash := (inject_Z bal / 100)%Q in
  w <- get ;;
  acc <- report_rows n (select_holdings n (holdings w)) 0%Q [] ;;
  let holding_value := acc.1 in
  let symbol_count := sort_by symbol_asc acc.2 in
  day_start_bal <- get_latest_hist_bal n ;;
  let '(gain_value, gain_pct) :=
    match day_start_bal with
    | Some row =>
        let newbal := (cash + holding_value)%Q in
        let startbal := (inject_Z (h_cents row) / 100)%Q in
        ((newbal - startbal)%Q, calc_gain startbal newbal)
    | None => (0%Q, 0%Q)
    end in
  ret {| r_cash := cash; r_holdings := symbol_count;
         r_holding_value := holding_value;
         r_24hgain := gain_value; r_24hpct := gain_pct |}.

(** [tabulate] reads [rows[0]] when its first line is asked for. *)
Definition do_report (lookup sender replyto : string) (full : bool) : M unit :=
  data <- build_report lookup ;;
  let dest := if full then sender else replyto in
  act_PRIVMSG dest (TReport sender lookup (r_cash data) (r_holding_value data)
                            (r_cash data + r_holding_value data)%Q
                            (r_24hgain data) (r_24hpct data)) ;;;
  if negb full then ret tt else
  match r_holdings data with
  | [] => raise IndexError
  | rows => for_each rows (λ line, act_PRIVMSG dest (TReportLine sender line))
  end.

(** *** Housekeeping *)

Definition record_nightly_balances : M unit :=
  e <- ask ;;
  w <- get ;;
  for_each (select_unrecorded (today e) w) (λ row,
    data <- build_report row.1 ;;
    let total := Py.int_of_dec ((r_cash data + r_holding_value data) * 100) in
    insert_history row.1 (today e) total).

Definition do_tasks : M unit :=
  e <- ask ;;
  w <- get ;;
  if now e - 60 <? task_time w then ret tt else
  modify (with_task_time (now e)) ;;;
  record_nightly_balances.

(** *** The two loops, one iteration each *)

(** One iteration of [price_updater], up to the sleep. *)
Definition price_updater : M unit :=
  try_except
    (w <- get ;;
     match select_oldest_held w with
     | Some (String c r, _) => v <- get_price (String c r) 0 ;; ret tt
     | _ => ret tt                       (* no row, or an empty symbol *)
     end)
    (ret tt).

(** One iteration of [trader_background]. *)
Definition trader_background : M unit :=
  try_except
    (w <- get ;;
     match asyncq w with
     | [] => do_tasks                    (* queue.Empty *)
     | queued :: rest =>
         modify (with_asyncq (λ _, rest)) ;;;
         match queued with
         | QTrade data => do_trade data
         | QPortReport lookup sender replyto full => do_report lookup sender replyto full
         end
     end)
    (ret tt).

(** *** Command handlers *)

Definition checksym (s : string) : option string :=
  if (12 <? String.length s)%nat then None else
  let s := Py.upper s in
  if RE_SYMBOL_match s then Some s else None.

(** [args[i]] *)
Definition arg (args : list string) (i : nat) : M string :=
  match args !! i with
  | Some a => ret a
  | None => raise IndexError
  end.

Definition parse_int (s : string) : M Z :=
  match Py.int_of_str s with
  | Some n => ret n
  | None => raise ValueError
  end.

Definition cmd_trade (is_buy : bool) (msg : message) (args : list string) : M unit :=
  check_nick (prefix_nick msg) ;;;
  a0 <- arg args 0 ;;
  amount <- parse_int a0 ;;
  a1 <- arg args 1 ;;
  match checksym a1 with
  | Some (String c r) =>
      if amount <=? 0 then ret tt else
      modify (with_asyncq (λ q, q ++
        [QTrade {| nick := prefix_nick msg; buy := is_buy; symbol := String c r;
                   amount := amount;
                   replyto := if Py.startswith "#" (args0 msg) then args0 msg
                              else prefix_nick msg |}]))
  | _ => ret tt
  end.

Definition cmd_buy (msg : message) (args : list string) : M unit :=
  cmd_trade true msg args.

Definition cmd_sell (msg : message) (args : list string) : M unit :=
  cmd_trade false msg args.

Definition cmd_port (msg : message) (args : list string) : M unit :=
  let '(full, lookup) :=
    match args with
    | [] => (false, prefix_nick msg)
    | a0 :: rest =>
        let '(full, lookup) :=
          if String.eqb a0 "full" then (true, prefix_nick msg) else (false, a0) in
        match rest with
        | a1 :: _ => if String.eqb a1 "full" then (true, lookup) else (full, lookup)
        | [] => (full, lookup)
        end
    end in
  modify (with_asyncq (λ q, q ++
    [QPortReport lookup (prefix_nick msg)
       (if full || negb (Py.startswith "#" (args0 msg)) then prefix_nick msg
        else args0 msg)
       full])).

End StockPlay.

(** ** The system as a transition function

    The store as [__init__] leaves it, and the steps the three threads
    take: a command of the chat thread, an iteration of the serial
    executor, an iteration of the quote updater. *)

Definition init : world :=
  {| balances := {[ DUSTACCT := 0 ]}; holdings := ∅; trades := [];
     prices := ∅; balance_history := []; task_time := 0; asyncq := [];
     outbox := []; fetchlog := [] |}.

Inductive event :=
| EBuy (msg : message) (args : list string)
| ESell (msg : message) (args : list string)
| EPort (msg : message) (args : list string)
| ETrader
| EPricer.

Definition handler (cfg : config) (ev : event) : M unit :=
  match ev with
  | EBuy msg args => cmd_buy cfg msg args
  | ESell msg args => cmd_sell cfg msg args
  | EPort msg args => cmd_port msg args
  | ETrader => trader_background cfg
  | EPricer => price_updater
  end.

Definition run (cfg : config) (ev : event) (e : env) (w : world) : world :=
  (handler cfg ev e w).2.

Fixpoint run_all (cfg : config) (evs : list (event * env)) (w : world) : world :=
  match evs with
  | [] => w
  | (ev, e) :: rest => run_all cfg rest (run cfg ev e w)
  end.

(** Everything but the quote cache and the log of upstream requests. *)
Definition non_cache (w : world) :=
  (balances w, holdings w, trades w, balance_history w, task_time w, asyncq w, outbox w).

(** Only a non-empty payload is ever written to the cache. *)
Definition cache_wf (w : world) : Prop :=
  map_Forall (λ _ row, row.2 ≠ (∅ : gmap string string)) (prices w).

(** The signed sums of [calc_user_avgbuy]'s walk over a list of rows. *)
Definition sign_of (row : trade_row) : Z :=
  if String.eqb (tr_type row) "buy" then 1 else -1.

Definition count_sum (rows : list trade_row) : Z :=
  foldr (λ row acc, tr_count row * sign_of row + acc) 0 rows.

Definition spent_sum (rows : list trade_row) : Z :=
  foldr (λ row acc, tr_price row * sign_of row + acc) 0 rows.

(** *** Invariants of computations

    [inv E P m]: in an environment satisfying [E], [m] takes a world
    satisfying [P] to one satisfying [P], whether it returns or raises. *)

Definition inv {A} (E : env → Prop) (P : world → Prop) (m : M A) : Prop :=
  ∀ e w, E e → P w → P (m e w).2.


(** The consideration in cents, the rounding fragment and the amount
    credited to the dust account, as [do_trade] computes them from the
    quoted unit price and the number of shares. *)
Definition price_rounded_of (symprice : Q) (amount : Z) : Z :=
  Py.ceil (symprice * inject_Z amount * 100).

Definition dust_of (symprice : Q) (amount : Z) : Q :=
  Qabs (symprice * inject_Z amount * 100 - inject_Z (price_rounded_of symprice amount)).

Definition dust_credit (symprice : Q) (amount : Z) : Z :=
  Py.int_of_dec (dust_of symprice amount * 100).

(** ** Sample data for the closed examples *)

Module Sample.

Definition cfg : config :=
  {| startbalance := 100; tcachesecs := 60; rcachesecs := 86400 |}.

(** The ["Global Quote"] member of a reply quoting [SYM] at price [p]. *)
Definition quote (p : string) : list (string * string) :=
  [("01. symbol", "SYM"); ("05. price", p)].

Definition env_at (t : Z) (r : response) : env :=
  {| now := t; today := "2019-02-08"; upstream := λ _, r |}.

Definition alice : message := {| prefix_nick := "alice"; args0 := "#chan" |}.

Definition order (b : bool) (n : Z) (s : string) : Trade :=
  {| nick := "alice"; buy := b; symbol := s; amount := n; replyto := "#chan" |}.

(** alice has been set up with the starting balance of 10000 cents. *)
Definition w_alice : world :=
  run cfg (EBuy alice ["0"; "sym"]) (env_at 900 HttpError) init.

(** alice has bought 10 SYM at $10.00 at time 1000. *)
Definition w_bought : world :=
  run_all cfg [(EBuy alice ["10"; "sym"], env_at 1000 (Body (Some (quote "10.00"))));
               (ETrader, env_at 1000 (Body (Some (quote "10.00"))))] init.

(** An account holding 500 cents. *)
Definition w_poor : world := with_balances <["alice" := 500]> init.

End Sample.

(** The world a trade leaves once its two checks have passed and the dust
    account has been read: the writes of [do_trade] in their order. *)
Definition traded (t : Trade) (symprice : Q) (nickbal count : Z) (w : world) : world :=
  with_holdings <[(nick t, symbol t) :=
                    if buy t then count + amount t else count - amount t]>
    (with_balances <[nick t :=
                       if buy t then nickbal - price_rounded_of symprice (amount t)
                       else nickbal + price_rounded_of symprice (amount t)]> w).

Definition committed (t : Trade) (symprice : Q) (nickbal dustbal : Z) (tm : Z)
    (w : world) : world :=
  with_trades (λ l, l ++ [{| tr_nick := nick t; tr_time := tm;
                             tr_type := if buy t then "buy" else "sell";
                             tr_symbol := symbol t; tr_count := amount t;
                             tr_price := price_rounded_of symprice (amount t) |}])
    (with_outbox (λ o, o ++ [{| dest := replyto t;
                                body := TTraded (nick t) (buy t) (amount t) (symbol t)
                                          (price_rounded_of symprice (amount t))
                                          (if buy t
                                           then nickbal - price_rounded_of symprice (amount t)
                                           else nickbal + price_rounded_of symprice (amount t)) |}])
       (with_balances <[DUSTACCT := dustbal + dust_credit symprice (amount t)]> w)).

Definition say (d : string) (t : text) (w : world) : world :=
  with_outbox (λ o, o ++ [{| dest := d; body := t |}]) w.

(** The queued trades of a list carried out one after the other, each in
    its own environment. *)
Fixpoint do_trades (cfg : config) (ts : list (Trade * env)) (w : world) : world :=
  match ts with
  | [] => w
  | (t, e) :: rest => do_trades cfg rest (do_trade cfg t e w).2
  end.

(** Every trade of the run that obtains a quote obtains the quote [p]. *)
Fixpoint fixed_quote (cfg : config) (p : Q) (ts : list (Trade * env)) (w : world) : Prop :=
  match ts with
  | [] => True
  | (t, e) :: rest =>
      (∀ v, (get_price (symbol t) (tcachesecs cfg) e w).1 = Ok v → v = VDec p)
      ∧ fixed_quote cfg p rest (do_trade cfg t e w).2
  end.

Definition sum_credits (p : Q) (rows : list trade_row) : Z :=
  foldr (λ row acc, dust_credit p (tr_count row) + acc) 0 rows.

(** The rows of the balance history of a nick for a day, and the primary
    key of the table: at most one row for a nick and a day. *)
Definition day_rows (n day : string) (H : list hist_row) : list hist_row :=
  filter (λ h, h_nick h = n ∧ h_day h = day) H.

Definition hist_pk (H : list hist_row) : Prop :=
  ∀ n day, (length (day_rows n day H) ≤ 1)%nat.

(** The body of the loop of [record_nightly_balances]. *)
Definition snapshot (cfg : config) (day : string) (row : string * Z) : M unit :=
  data <- build_report cfg row.1 ;;
  let total := Py.int_of_dec ((r_cash data + r_holding_value data) * 100) in
  insert_history row.1 day total.


(** Quotes are not negative: those the upstream gives, those the cache
    holds. *)
Definition quotes_nonneg (e : env) : Prop :=
  ∀ s data str p,
    upstream e s = Body (Some data) → reformat data !! "price" = Some str →
    Py.Decimal str = Some p → (0 <= p)%Q.

Definition cache_nonneg (w : world) : Prop :=
  ∀ s t d str p,
    prices w !! s = Some (t, d) → d !! "price" = Some str →
    Py.Decimal str = Some p → (0 <= p)%Q.

(** The queued trades are of a positive number of shares. *)
Definition queue_positive (w : world) : Prop :=
  Forall (λ q, match q with QTrade t => 0 < amount t | _ => True end) (asyncq w).

(** No balance and no holding is negative. *)
Definition ledger_nonneg (w : world) : Prop :=
  map_Forall (λ _ c, 0 ≤ c) (balances w) ∧ map_Forall (λ _ c, 0 ≤ c) (holdings w).

Definition sound (w : world) : Prop :=
  ledger_nonneg w ∧ cache_nonneg w ∧ queue_positive w.

(** Every holding is of a symbol that has a row in the quote cache. *)
Definition held_cached (w : world) : Prop :=
  ∀ n s c, holdings w !! (n, s) = Some c → is_Some (prices w !! s).

(** Nothing of [w] is missing from [w']: rows with a primary key are
    still there, the trade log and the balance history have only grown at
    their end. *)
Definition extends (w w' : world) : Prop :=
  (∀ n, is_Some (balances w !! n) → is_Some (balances w' !! n))
  ∧ (∀ k, is_Some (holdings w !! k) → is_Some (holdings w' !! k))
  ∧ (∀ s, is_Some (prices w !! s) → is_Some (prices w' !! s))
  ∧ trades w `prefix_of` trades w'
  ∧ balance_history w `prefix_of` balance_history w'.

(** The rows of the trade log of a nick and a symbol, in the order of the
    log. *)
Definition trades_of (n s : string) (log : list trade_row) : list trade_row :=
  filter (λ r, tr_nick r = n ∧ tr_symbol r = s) log.

(** The dust row exists, and every holding is the balance of the buys and
    sells of the trade log. *)
Definition log_consistent (w : world) : Prop :=
  is_Some (balances w !! DUSTACCT)
  ∧ ∀ n s, default 0 (holdings w !! (n, s)) = count_sum (trades_of n s (trades w)).
(** ** Results *)

Ltac unfold_M :=
  unfold bind, ret, raise, get, ask, modify, lift_res, try_except in *.

Section Inv.

Context (E : env → Prop) (P : world → Prop).

Lemma inv_ret {A} (a : A) : inv E P (ret a).
Proof. by intros e w. Qed.

Lemma inv_raise {A} x : inv E P (raise (A := A) x).
Proof. by intros e w. Qed.

Lemma inv_get : inv E P get.
Proof. by intros e w. Qed.

Lemma inv_ask : inv E P ask.
Proof. by intros e w. Qed.

Lemma inv_lift_res {A} (r : res A) : inv E P (lift_res r).
Proof. by intros e w. Qed.

Lemma inv_modify f : (∀ w, P w → P (f w)) → inv E P (modify f).
Proof. intros Hf e w _ Hw. by apply Hf. Qed.

Lemma inv_bind {A B} (m : M A) (k : A → M B) :
  inv E P m → (∀ a, inv E P (k a)) → inv E P (bind m k).
Proof.
  intros Hm Hk e w He Hw. unfold bind.
  specialize (Hm e w He Hw).
  destruct (m e w) as [[a|x] w']; simpl in *; [by apply Hk|done].
Qed.

Lemma inv_try_except {A} (m h : M A) :
  inv E P m → inv E P h → inv E P (try_except m h).
Proof.
  intros Hm Hh e w He Hw. unfold try_except.
  specialize (Hm e w He Hw).
  destruct (m e w) as [[a|x] w']; simpl in *; [done|by apply Hh].
Qed.

Lemma inv_for_each {A} (xs : list A) (body : A → M unit) :
  (∀ x, inv E P (body x)) → inv E P (for_each xs body).
Proof.
  intros Hbody. induction xs as [|x xs IH]; simpl.
  - apply inv_ret.
  - apply inv_bind; [apply Hbody|by intros _].
Qed.

End Inv.

(** Splits a computation along its binds, leaving the writes and the calls
    of other methods. *)
Ltac inv_step :=
  lazymatch goal with
  | |- inv _ _ (bind _ _) => apply inv_bind; [|intros ?]
  | |- inv _ _ (ret _) => apply inv_ret
  | |- inv _ _ (raise _) => apply inv_raise
  | |- inv _ _ get => apply inv_get
  | |- inv _ _ ask => apply inv_ask
  | |- inv _ _ (lift_res _) => apply inv_lift_res
  | |- inv _ _ (try_except _ _) => apply inv_try_except
  | |- inv _ _ (for_each _ _) => apply inv_for_each; intros ?
  | |- inv _ _ (act_PRIVMSG _ _) => unfold act_PRIVMSG
  | |- inv _ _ (modify _) => apply inv_modify; intros ? ?
  | |- inv _ _ (match ?x with _ => _ end) => destruct x
  | |- inv _ _ (let '(_, _) := ?x in _) => destruct x
  end.

Section PriceCache.

Lemma reformat_nil : reformat [] = ∅.
Proof. reflexivity. Qed.

Lemma truthy_Some (d : gmap string string) : truthy (Some d) = true ↔ d ≠ ∅.
Proof. unfold truthy. by rewrite bool_decide_eq_true. Qed.

Lemma get_priceinfo_cached_hit s T e w t data :
  prices w !! s = Some (t, data) → now e - t ≤ T → data ≠ ∅ →
  get_priceinfo_cached s T e w = (decimalize data, w).
Proof.
  intros Hrow Hage Hne.
  unfold get_priceinfo_cached, _get_cache_priceinfo. unfold_M.
  rewrite Hrow.
  destruct (T <? now e - t) eqn:Hlt; [apply Z.ltb_lt in Hlt; lia|].
  assert (truthy (Some data) = true) as -> by by apply truthy_Some.
  reflexivity.
Qed.

Lemma _get_cache_priceinfo_miss s T e w :
  (prices w !! s = None ∨ ∃ t data, prices w !! s = Some (t, data) ∧ T < now e - t) →
  _get_cache_priceinfo s T e w = (Ok None, w).
Proof.
  unfold _get_cache_priceinfo. unfold_M.
  intros [-> | (t & data & -> & Hage)]; [done|].
  by apply Z.ltb_lt in Hage as ->.
Qed.

Lemma get_priceinfo_cached_miss s T e w :
  (prices w !! s = None ∨ ∃ t data, prices w !! s = Some (t, data) ∧ T < now e - t) →
  get_priceinfo_cached s T e w =
    match upstream e s with
    | HttpError => (Raise RequestError, with_fetchlog (λ l, l ++ [s]) w)
    | Body None => (Raise KeyError, with_fetchlog (λ l, l ++ [s]) w)
    | Body (Some []) => (Raise AttributeError, with_fetchlog (λ l, l ++ [s]) w)
    | Body (Some data) =>
        if bool_decide (reformat data ≠ ∅)
        then (decimalize (reformat data),
              with_prices <[s := (now e, reformat data)]>
                (with_fetchlog (λ l, l ++ [s]) w))
        else (decimalize (reformat data), with_fetchlog (λ l, l ++ [s]) w)
    end.
Proof.
  intros Hmiss.
  unfold get_priceinfo_cached. unfold bind at 1.
  rewrite (_get_cache_priceinfo_miss _ _ _ _ Hmiss). simpl.
  unfold fetch_priceinfo, _set_cache_priceinfo. unfold_M. simpl.
  destruct (upstream e s) as [|[[|kv data]|]]; try reflexivity.
  unfold truthy.
  destruct (bool_decide (reformat (kv :: data) ≠ ∅)); reflexivity.
Qed.

End PriceCache.


Section PriceOnly.

(** What the quote functions leave alone, and what they can return. *)

Lemma decimalize_price d info v :
  decimalize d = Ok info → info !! "price" = Some v →
  ∃ str p, d !! "price" = Some str ∧ Py.Decimal str = Some p ∧ v = VDec p.
Proof.
  unfold decimalize. case_bool_decide; [|done].
  intros [= <-]. rewrite map_lookup_imap.
  destruct (d !! "price") as [str|]; [simpl|done].
  unfold numfield_conv.
  replace (bool_decide ("price" ∈ numfields)) with true by (by vm_compute).
  destruct (Py.Decimal str) as [p|] eqn:Hdec; [|done].
  intros [= <-]. by exists str, p.
Qed.

Lemma get_priceinfo_cached_frame s T e w :
  non_cache (get_priceinfo_cached s T e w).2 = non_cache w.
Proof.
  unfold get_priceinfo_cached, _get_cache_priceinfo, fetch_priceinfo,
    _set_cache_priceinfo. unfold_M.
  repeat case_match; simplify_eq/=; try done.
  all: unfold truthy in *; repeat case_match; simplify_eq/=; done.
Qed.

(** After [get_priceinfo_cached] has returned a dictionary, the cache
    holds the payload it was made from. *)
Lemma get_priceinfo_cached_Ok s T e w info w' :
  get_priceinfo_cached s T e w = (Ok info, w') →
  (∃ t d, prices w' !! s = Some (t, d) ∧ decimalize d = Ok info)
  ∨ info = ∅.
Proof.
  unfold get_priceinfo_cached, _get_cache_priceinfo, fetch_priceinfo,
    _set_cache_priceinfo. unfold_M.
  intros H.
  repeat case_match; simplify_eq/=; unfold truthy in *;
    repeat case_match; simplify_eq/=.
  all: try (left; eexists _, _; split; [eassumption|done]).
  all: try (left; eexists _, _; split; [apply lookup_insert_eq|done]).
  all: right.
  all: repeat match goal with
         | H : bool_decide _ = false |- _ => apply bool_decide_eq_false in H
         | H : ¬ (_ ≠ _) |- _ => apply dec_stable in H
         end.
  all: match goal with
       | H : ?d = ∅, H' : decimalize ?d = Ok _ |- _ =>
           rewrite H in H'; vm_compute in H'; by inversion H'
       end.
Qed.

Lemma get_price_frame s T e w :
  non_cache (get_price s T e w).2 = non_cache w.
Proof.
  unfold get_price, bind.
  pose proof (get_priceinfo_cached_frame s (or_60 T) e w) as H.
  destruct (get_priceinfo_cached s (or_60 T) e w) as [[info|x] w']; [|done].
  simpl in H. by destruct (info !! "price").
Qed.

(** [get_price] returns a decimal, read from the payload that the cache
    holds afterwards: it never returns [None]. *)
Lemma get_price_Ok s T e w v w' :
  get_price s T e w = (Ok v, w') →
  ∃ t d str p, prices w' !! s = Some (t, d) ∧ d !! "price" = Some str
               ∧ Py.Decimal str = Some p ∧ v = VDec p.
Proof.
  unfold get_price, bind. intros H.
  destruct (get_priceinfo_cached s (or_60 T) e w) as [[info|x] w1] eqn:Hc; [|done].
  destruct (info !! "price") as [v'|] eqn:Hp; unfold_M; simplify_eq.
  apply get_priceinfo_cached_Ok in Hc as [(t & d & Hrow & Hd)| ->]; [|done].
  destruct (decimalize_price _ _ _ Hd Hp) as (str & p & ? & ? & ->).
  by eexists t, d, str, p.
Qed.

End PriceOnly.

Section CacheClaims.

(** C3. [get_priceinfo_cached symbol T]: when the cache holds an entry of
    age [now - time <= T] it is returned, the world is unchanged and no
    upstream request is made; when the entry is older than [T] or absent,
    exactly one upstream request is made, and then: a quote (a payload
    with at least one known key) replaces the cache row of the symbol and
    is the value returned; an upstream failure is raised, the cache being
    left as it was, whatever stale entry it holds. *)
Theorem get_priceinfo_cached_freshness s T e w :
  cache_wf w →
  (∀ t data, prices w !! s = Some (t, data) → now e - t ≤ T →
     get_priceinfo_cached s T e w = (decimalize data, w))
  ∧ ((prices w !! s = None
      ∨ ∃ t data, prices w !! s = Some (t, data) ∧ T < now e - t) →
     let r := (get_priceinfo_cached s T e w).1 in
     let w' := (get_priceinfo_cached s T e w).2 in
     fetchlog w' = fetchlog w ++ [s]
     ∧ non_cache w' = non_cache w
     ∧ (∀ data, upstream e s = Body (Some data) → reformat data ≠ ∅ →
          r = decimalize (reformat data)
          ∧ prices w' = <[s := (now e, reformat data)]> (prices w))
     ∧ (upstream e s = HttpError → r = Raise RequestError ∧ prices w' = prices w)
     ∧ (upstream e s = Body None → r = Raise KeyError ∧ prices w' = prices w)).
Proof.
  intros Hwf. split.
  - intros t data Hrow Hage.
    apply get_priceinfo_cached_hit with t; [done..|].
    apply (Hwf s (t, data) Hrow).
  - intros Hmiss. cbv zeta.
    rewrite (get_priceinfo_cached_miss _ _ _ _ Hmiss).
    destruct (upstream e s) as [|[[|kv data]|]] eqn:Hup; simpl.
    + repeat split; intros; simplify_eq.
    + repeat split; intros; simplify_eq.
    + case_bool_decide as Hne; simpl; repeat split; intros; simplify_eq; done.
    + repeat split; intros; simplify_eq.
Qed.

Lemma get_priceinfo_cached_freshness_witness :
  let w := Sample.w_bought in
  let e := Sample.env_at 1030 HttpError in
  cache_wf w
  ∧ get_priceinfo_cached "SYM" 60 e w
    = (decimalize (reformat (Sample.quote "10.00")), w).
Proof.
  assert (cache_wf Sample.w_bought) as Hwf.
  { unfold cache_wf. apply (bool_decide_unpack _). by vm_compute. }
  split; [exact Hwf|].
  apply (proj1 (get_priceinfo_cached_freshness "SYM" 60
                  (Sample.env_at 1030 HttpError) Sample.w_bought Hwf) 1000).
  - by vm_compute.
  - by vm_compute.
Defined.

(** The value returned by [get_price] is never [None]. *)
Lemma get_price_not_None s T e w : (get_price s T e w).1 ≠ Ok VNone.
Proof.
  destruct (get_price s T e w) as [[v|x] w'] eqn:H; [|done].
  apply get_price_Ok in H as (? & ? & ? & ? & _ & _ & _ & ->). done.
Qed.

(** C2. An empty upstream result makes [fetch_priceinfo] return [None],
    on which [get_priceinfo_cached] raises [AttributeError]; [do_trade]
    then answers exactly as it does after a failed request, and its test
    [symprice is None] never succeeds. *)
Theorem unknown_symbol_is_reported_as_api_failure :
  let unknown := Sample.env_at 1000 (Body (Some [])) in
  let failed := Sample.env_at 1000 HttpError in
  fetch_priceinfo "ZZZZ" unknown Sample.w_alice
    = (Ok None, with_fetchlog (λ l, l ++ ["ZZZZ"]) Sample.w_alice)
  ∧ (get_priceinfo_cached "ZZZZ" 60 unknown Sample.w_alice).1 = Raise AttributeError
  ∧ do_trade Sample.cfg (Sample.order true 1 "ZZZZ") unknown Sample.w_alice
    = do_trade Sample.cfg (Sample.order true 1 "ZZZZ") failed Sample.w_alice
  ∧ outbox (do_trade Sample.cfg (Sample.order true 1 "ZZZZ") unknown Sample.w_alice).2
    = outbox Sample.w_alice ++ [{| dest := "#chan"; body := TAborted "alice" |}]
  ∧ (∀ s T e w, (get_price s T e w).1 ≠ Ok VNone).
Proof.
  cbv zeta.
  split; [vm_compute; reflexivity|].
  split; [vm_compute; reflexivity|].
  split; [vm_compute; reflexivity|].
  split; [vm_compute; reflexivity|].
  apply get_price_not_None.
Qed.

(** C4. alice holds SYM, whose quote was cached at time 1000.  At time
    1030 the sweep selects SYM and calls [get_price] with threshold 0,
    which [thresh or 60] turns into 60: the cached quote is returned, no
    upstream request is made and the cache row keeps its time. *)
Theorem sweep_does_not_refresh_recent_quote :
  let e := Sample.env_at 1030 (Body (Some (Sample.quote "11.00"))) in
  fst <$> select_oldest_held Sample.w_bought = Some "SYM"
  ∧ (snd <$> select_oldest_held Sample.w_bought) ≫= (λ row, Some row.1) = Some 1000
  ∧ or_60 0 = 60
  ∧ price_updater e Sample.w_bought = (Ok tt, Sample.w_bought)
  ∧ fetchlog (price_updater e Sample.w_bought).2 = fetchlog Sample.w_bought.
Proof.
  cbv zeta.
  split; [vm_compute; reflexivity|].
  split; [vm_compute; reflexivity|].
  split; [reflexivity|].
  split; vm_compute; reflexivity.
Qed.

End CacheClaims.

Section TradeEngine.

Variable cfg : config.

(** [do_trade] as one case analysis: on the quote, on the balance row, on
    the symbol's case, on the two checks and on the dust row. *)
Lemma do_trade_eq t e w :
  do_trade cfg t e w =
  match get_price (symbol t) (tcachesecs cfg) e w with
  | (Raise _, w1) => (Ok tt, say (replyto t) (TAborted (nick t)) w1)
  | (Ok VNone, w1) => (Ok tt, say (replyto t) (TInvalidSymbol (nick t) (symbol t)) w1)
  | (Ok (VStr _), w1) => (Raise TypeError, w1)
  | (Ok (VDec p), w1) =>
      match balances w1 !! nick t with
      | None => (Raise TypeError, w1)
      | Some nickbal =>
          if bool_decide (symbol t = Py.upper (symbol t)) then
            let count := default 0 (holdings w1 !! (nick t, symbol t)) in
            if buy t && (nickbal <? price_rounded_of p (amount t)) then
              (Ok tt, say (replyto t)
                        (TCantAfford (nick t) (price_rounded_of p (amount t))) w1)
            else if negb (buy t) && (count <? amount t) then
              (Ok tt, say (replyto t) (TNotThatMany (nick t)) w1)
            else
              let w2 := traded t p nickbal count w1 in
              match balances w2 !! DUSTACCT with
              | None => (Raise TypeError, w2)
              | Some dustbal => (Ok tt, committed t p nickbal dustbal (now e) w2)
              end
          else (Raise AssertionError, w1)
      end
  end.
Proof.
  unfold do_trade, try_except. unfold bind at 1. unfold bind at 1.
  destruct (get_price (symbol t) (tcachesecs cfg) e w) as [[[p| |]|x] w1];
    try reflexivity.
  unfold ret at 1. cbv beta iota.
  unfold get_bal, get_holding. unfold bind at 1. unfold bind at 1.
  unfold get at 1. cbv beta iota.
  destruct (balances w1 !! nick t) as [nickbal|]; [|reflexivity].
  unfold ret at 1. cbv beta iota. unfold bind at 1.
  case_bool_decide; [|reflexivity].
  unfold bind at 1. unfold get at 1. cbv beta iota. unfold ret at 1. cbv beta iota.
  change (Py.ceil (p * inject_Z (amount t) * 100)) with (price_rounded_of p (amount t)).
  destruct (buy t && (nickbal <? price_rounded_of p (amount t))); [reflexivity|].
  destruct (negb (buy t) && (default 0 (holdings w1 !! (nick t, symbol t)) <? amount t));
    [reflexivity|].
  unfold set_bal, set_holding, act_PRIVMSG, log_trade, bind, modify, get, ask, ret, raise.
  cbv beta iota zeta.
  fold (traded t p nickbal (default 0 (holdings w1 !! (nick t, symbol t))) w1).
  destruct (balances (traded t p nickbal (default 0 (holdings w1 !! (nick t, symbol t))) w1)
              !! DUSTACCT); reflexivity.
Qed.

Lemma get_price_ledger s T e w : ledger (get_price s T e w).2 = ledger w.
Proof.
  pose proof (get_price_frame s T e w) as H. unfold non_cache in H.
  unfold ledger. congruence.
Qed.

Lemma do_trade_unchanged_or_valid t e w :
  ledger (do_trade cfg t e w).2 = ledger w
  ∨ ∃ p nickbal,
      (get_price (symbol t) (tcachesecs cfg) e w).1 = Ok (VDec p)
      ∧ balances w !! nick t = Some nickbal
      ∧ (buy t = true → price_rounded_of p (amount t) ≤ nickbal)
      ∧ (buy t = false → amount t ≤ default 0 (holdings w !! (nick t, symbol t))).
Proof.
  rewrite do_trade_eq.
  pose proof (get_price_ledger (symbol t) (tcachesecs cfg) e w) as Hl.
  destruct (get_price (symbol t) (tcachesecs cfg) e w) as [[[p| |]|x] w1];
    cbn [fst snd] in *; try (by left).
  assert (balances w1 = balances w ∧ holdings w1 = holdings w) as [Hb Hh].
  { unfold ledger in Hl. by simplify_eq. }
  destruct (balances w1 !! nick t) as [nickbal|] eqn:Hbal; [|by left].
  case_bool_decide; [|by left].
  cbv zeta.
  destruct (buy t && _) eqn:Hbuy; [by left|].
  destruct (negb (buy t) && _) eqn:Hsell; [by left|].
  right. exists p, nickbal. rewrite <- Hb, <- Hh.
  split; [done|]. split; [done|].
  split; intros Hside; rewrite Hside in *; simpl in *; lia.
Qed.

(** C5. A trade changes a ledger row (a balance, the dust account's
    included, a holding, the trade log) only if it is a buy whose
    consideration in cents is at most the account's cash, or a sell of at
    most the shares held; when the check of its side fails, every ledger
    row is as before and no trade record is appended. *)
Theorem do_trade_validation t e w :
  (ledger (do_trade cfg t e w).2 ≠ ledger w →
   ∃ p nickbal,
     (get_price (symbol t) (tcachesecs cfg) e w).1 = Ok (VDec p)
     ∧ balances w !! nick t = Some nickbal
     ∧ (buy t = true → price_rounded_of p (amount t) ≤ nickbal)
     ∧ (buy t = false → amount t ≤ default 0 (holdings w !! (nick t, symbol t))))
  ∧ (∀ p nickbal,
       (get_price (symbol t) (tcachesecs cfg) e w).1 = Ok (VDec p) →
       balances w !! nick t = Some nickbal →
       (buy t = true ∧ nickbal < price_rounded_of p (amount t))
       ∨ (buy t = false ∧ default 0 (holdings w !! (nick t, symbol t)) < amount t) →
       ledger (do_trade cfg t e w).2 = ledger w
       ∧ trades (do_trade cfg t e w).2 = trades w).
Proof.
  destruct (do_trade_unchanged_or_valid t e w)
    as [Hsame|(p & nickbal & Hp & Hb & Hbuy & Hsell)].
  - split; [done|]. intros _ _ _ _ _. split; [done|].
    unfold ledger in Hsame. by simplify_eq.
  - split; [by eauto 10|].
    intros p' nickbal' Hp' Hb' Hfail. exfalso.
    rewrite Hp in Hp'. rewrite Hb in Hb'. simplify_eq.
    destruct Hfail as [[Hside Hlt]|[Hside Hlt]].
    + specialize (Hbuy Hside). lia.
    + specialize (Hsell Hside). lia.
Qed.

End TradeEngine.

(** The scenario of the account with 500 cents buying one share quoted at
    $10.00. *)
Lemma do_trade_validation_witness :
  let t := Sample.order true 1 "SYM" in
  let e := Sample.env_at 1000 (Body (Some (Sample.quote "10.00"))) in
  let w := Sample.w_poor in
  (get_price (symbol t) (tcachesecs Sample.cfg) e w).1 = Ok (VDec (10000 # 1000))
  ∧ balances w !! nick t = Some 500
  ∧ 500 < price_rounded_of (10000 # 1000) (amount t)
  ∧ ledger (do_trade Sample.cfg t e w).2 = ledger w
  ∧ trades (do_trade Sample.cfg t e w).2 = trades w.
Proof.
  cbv zeta.
  assert ((get_price (symbol (Sample.order true 1 "SYM")) (tcachesecs Sample.cfg)
             (Sample.env_at 1000 (Body (Some (Sample.quote "10.00")))) Sample.w_poor).1
          = Ok (VDec (10000 # 1000))) as Hp by (vm_compute; reflexivity).
  assert (balances Sample.w_poor !! nick (Sample.order true 1 "SYM") = Some 500)
    as Hb by (vm_compute; reflexivity).
  assert (500 < price_rounded_of (10000 # 1000) (amount (Sample.order true 1 "SYM")))
    as Hlt by (vm_compute; reflexivity).
  split; [exact Hp|]. split; [exact Hb|]. split; [exact Hlt|].
  exact (proj2 (do_trade_validation Sample.cfg (Sample.order true 1 "SYM")
                  (Sample.env_at 1000 (Body (Some (Sample.quote "10.00"))))
                  Sample.w_poor)
               (10000 # 1000)%Q 500 Hp Hb (or_introl (conj eq_refl Hlt))).
Defined.


Section Dust.

Lemma dust_of_range p n : (0 <= dust_of p n)%Q ∧ (dust_of p n < 1)%Q.
Proof.
  unfold dust_of, price_rounded_of, Py.ceil.
  set (x := (p * inject_Z n * 100)%Q).
  split; [apply Qabs_nonneg|].
  apply Qabs_Qlt_condition.
  pose proof (Qle_ceiling x) as Hle.
  pose proof (Qceiling_lt x) as Hlt.
  unfold Z.sub in Hlt. rewrite inject_Z_plus, inject_Z_opp in Hlt.
  change (inject_Z 1) with 1%Q in Hlt.
  clearbody x. split; lra.
Qed.

Lemma dust_credit_floor p n : dust_credit p n = Qfloor (dust_of p n * 100).
Proof.
  unfold dust_credit, Py.int_of_dec.
  destruct (dust_of_range p n) as [H0 _].
  destruct (Qle_bool 0 (dust_of p n * 100)) eqn:Hb; [done|].
  assert (0 <= dust_of p n * 100)%Q as Hle by lra.
  apply Qle_bool_iff in Hle. congruence.
Qed.

Lemma dust_credit_bounds p n : 0 ≤ dust_credit p n ≤ 99.
Proof.
  rewrite dust_credit_floor.
  destruct (dust_of_range p n) as [H0 H1].
  split.
  - change 0 with (Qfloor 0). apply Qfloor_resp_le. lra.
  - pose proof (Qfloor_le (dust_of p n * 100)) as Hf.
    assert (inject_Z (Qfloor (dust_of p n * 100)) < inject_Z 100)%Q as Hlt.
    { change (inject_Z 100) with 100%Q. lra. }
    rewrite <- Zlt_Qlt in Hlt. lia.
Qed.

Variable cfg : config.

(** One trade: either nothing is logged and the dust balance is as it
    was, or one row is logged and the dust balance has grown by
    [int(dust * 100)]. *)
Lemma do_trade_dust t e w dustbal :
  nick t ≠ DUSTACCT → balances w !! DUSTACCT = Some dustbal →
  (trades (do_trade cfg t e w).2 = trades w
   ∧ balances (do_trade cfg t e w).2 !! DUSTACCT = Some dustbal)
  ∨ (∃ p row,
       (get_price (symbol t) (tcachesecs cfg) e w).1 = Ok (VDec p)
       ∧ trades (do_trade cfg t e w).2 = trades w ++ [row]
       ∧ tr_count row = amount t
       ∧ balances (do_trade cfg t e w).2 !! DUSTACCT
         = Some (dustbal + dust_credit p (amount t))).
Proof.
  intros Hnick Hdust.
  rewrite do_trade_eq.
  pose proof (get_price_ledger (symbol t) (tcachesecs cfg) e w) as Hl.
  destruct (get_price (symbol t) (tcachesecs cfg) e w) as [[[p| |]|x] w1];
    cbn [fst snd] in *.
  all: assert (balances w1 = balances w ∧ trades w1 = trades w) as [Hb Ht]
         by (unfold ledger in Hl; by simplify_eq).
  all: try (left; simpl; by rewrite ?Hb, ?Ht).
  destruct (balances w1 !! nick t) as [nickbal|] eqn:Hbal;
    [|left; simpl; by rewrite ?Hb, ?Ht].
  case_bool_decide; [|left; simpl; by rewrite ?Hb, ?Ht].
  cbv zeta.
  destruct (buy t && _); [left; simpl; by rewrite ?Hb, ?Ht|].
  destruct (negb (buy t) && _); [left; simpl; by rewrite ?Hb, ?Ht|].
  assert (balances (traded t p nickbal (default 0 (holdings w1 !! (nick t, symbol t))) w1)
            !! DUSTACCT = Some dustbal) as ->.
  { simpl. rewrite lookup_insert_ne by done. by rewrite Hb. }
  right. eexists p, _. split; [done|]. simpl. rewrite Ht.
  split; [reflexivity|]. split; [reflexivity|].
  by rewrite lookup_insert_eq.
Qed.

(** C1, as the code has it.  Over any run of trades none of which is made
    by the dust account, all quoted at [p]: the trade log grows by the
    rows of the trades that commit, and the dust balance grows by the sum
    over these rows of [int(dust * 100)], the rounding fragment of the
    trade counted in hundredths of a cent and truncated, which is the
    floor of [100 * dust] and lies between 0 and 99. *)
Theorem dust_account_credits p ts w dustbal :
  balances w !! DUSTACCT = Some dustbal →
  Forall (λ te : Trade * env, nick te.1 ≠ DUSTACCT) ts →
  fixed_quote cfg p ts w →
  (∃ rows,
     trades (do_trades cfg ts w) = trades w ++ rows
     ∧ (length rows ≤ length ts)%nat
     ∧ balances (do_trades cfg ts w) !! DUSTACCT = Some (dustbal + sum_credits p rows))
  ∧ (∀ n, dust_credit p n = Qfloor (dust_of p n * 100) ∧ 0 ≤ dust_credit p n ≤ 99).
Proof.
  intros Hdust Hnicks Hq.
  split; [|intros n; split; [apply dust_credit_floor|apply dust_credit_bounds]].
  revert w dustbal Hdust Hq.
  induction Hnicks as [|[t e] ts Hnick _ IH]; intros w dustbal Hdust Hq.
  - exists []. simpl. rewrite app_nil_r, Z.add_0_r. done.
  - simpl in Hq. destruct Hq as [Hp Hq]. simpl in Hnick.
    destruct (do_trade_dust t e w dustbal Hnick Hdust)
      as [[Ht Hd]|(p' & row & Hp' & Ht & Hc & Hd)].
    + destruct (IH _ _ Hd Hq) as (rows & Hrows & Hlen & Hbal).
      exists rows. simpl. rewrite Hrows, Ht. split; [done|]. split; [lia|done].
    + specialize (Hp _ Hp'). simplify_eq.
      destruct (IH _ _ Hd Hq) as (rows & Hrows & Hlen & Hbal).
      exists (row :: rows). simpl. rewrite Hrows, Ht, <- app_assoc.
      split; [done|]. split; [lia|].
      rewrite Hbal, Hc. f_equal. lia.
Qed.

End Dust.

(** Two buys of one share quoted at $10.005: each leaves half a cent of
    dust and credits 50 to the dust account. *)
Lemma dust_account_credits_witness :
  let e := Sample.env_at 1000 (Body (Some (Sample.quote "10.005"))) in
  let ts := [(Sample.order true 1 "SYM", e); (Sample.order true 1 "SYM", e)] in
  balances Sample.w_alice !! DUSTACCT = Some 0
  ∧ (∃ rows,
       trades (do_trades Sample.cfg ts Sample.w_alice) = trades Sample.w_alice ++ rows
       ∧ (length rows ≤ length ts)%nat
       ∧ balances (do_trades Sample.cfg ts Sample.w_alice) !! DUSTACCT
         = Some (0 + sum_credits (100050 # 10000) rows)).
Proof.
  cbv zeta.
  assert (balances Sample.w_alice !! DUSTACCT = Some 0) as Hd
    by (vm_compute; reflexivity).
  split; [exact Hd|].
  refine (proj1 (dust_account_credits Sample.cfg (100050 # 10000)%Q _ _ 0 Hd _ _)).
  - repeat constructor; vm_compute; discriminate.
  - simpl. split; [|split; [|exact I]].
    + intros v Hv. vm_compute in Hv. by inversion Hv.
    + intros v Hv. vm_compute in Hv. by inversion Hv.
Defined.

(** C1 as stated fails: a buy of one share quoted at $10.005 leaves a
    rounding fragment of half a cent, and the dust account, at 0 before,
    is at 50 after. *)
Lemma dust_credit_is_not_the_fragment :
  let e := Sample.env_at 1000 (Body (Some (Sample.quote "10.005"))) in
  let t := Sample.order true 1 "SYM" in
  (get_price (symbol t) (tcachesecs Sample.cfg) e Sample.w_alice).1
    = Ok (VDec (100050 # 10000))
  ∧ price_rounded_of (100050 # 10000) 1 = 1001
  ∧ (dust_of (100050 # 10000) 1 == 1 # 2)%Q
  ∧ balances Sample.w_alice !! DUSTACCT = Some 0
  ∧ balances (do_trade Sample.cfg t e Sample.w_alice).2 !! DUSTACCT = Some 50
  ∧ ¬ (inject_Z (50 - 0) == dust_of (100050 # 10000) 1)%Q.
Proof.
  cbv zeta.
  split; [vm_compute; reflexivity|].
  split; [vm_compute; reflexivity|].
  split; [vm_compute; reflexivity|].
  split; [vm_compute; reflexivity|].
  split; [vm_compute; reflexivity|].
  vm_compute. discriminate.
Qed.

Section Executor.

Variable cfg : config.

Lemma trader_background_trade t rest e w :
  asyncq w = QTrade t :: rest →
  trader_background cfg e w
  = (Ok tt, (do_trade cfg t e (with_asyncq (λ _, rest) w)).2).
Proof.
  intros Hq. unfold trader_background, try_except, bind, get, modify, ret.
  rewrite Hq.
  by destruct (do_trade cfg t e (with_asyncq (λ _ : list queued, rest) w)) as [[[]|x] w'].
Qed.

Lemma trader_background_report lookup sender replyto full rest e w :
  asyncq w = QPortReport lookup sender replyto full :: rest →
  trader_background cfg e w
  = (Ok tt, (do_report cfg lookup sender replyto full e (with_asyncq (λ _, rest) w)).2).
Proof.
  intros Hq. unfold trader_background, try_except, bind, get, modify, ret.
  rewrite Hq.
  by destruct (do_report cfg lookup sender replyto full e
                 (with_asyncq (λ _ : list queued, rest) w)) as [[[]|x] w'].
Qed.

Lemma get_bal_missing n e w :
  balances w !! n = None → get_bal n e w = (Raise TypeError, w).
Proof. intros H. unfold get_bal, bind, get, raise. by rewrite H. Qed.

(** C10. For a nick with no row in [stockplay_balances], [get_bal]
    raises instead of returning a value; so do [build_report] and
    [do_report], before anything is written or sent; and the executor,
    given a report request for that nick, takes it off the queue and sends
    nothing. *)
Theorem report_of_unknown_account_sends_nothing lookup e w :
  balances w !! lookup = None →
  get_bal lookup e w = (Raise TypeError, w)
  ∧ build_report cfg lookup e w = (Raise TypeError, w)
  ∧ (∀ sender replyto full,
       do_report cfg lookup sender replyto full e w = (Raise TypeError, w))
  ∧ (∀ sender replyto full rest,
       asyncq w = QPortReport lookup sender replyto full :: rest →
       trader_background cfg e w = (Ok tt, with_asyncq (λ _, rest) w)
       ∧ outbox (trader_background cfg e w).2 = outbox w).
Proof.
  intros Hnone.
  assert (∀ w0, balances w0 !! lookup = None →
                build_report cfg lookup e w0 = (Raise TypeError, w0)) as Hbuild.
  { intros w0 H0. unfold build_report. unfold bind at 1.
    by rewrite (get_bal_missing _ _ _ H0). }
  assert (∀ w0 sender replyto full, balances w0 !! lookup = None →
            do_report cfg lookup sender replyto full e w0 = (Raise TypeError, w0))
    as Hreport.
  { intros w0 sender replyto full H0. unfold do_report. unfold bind at 1.
    by rewrite (Hbuild _ H0). }
  split; [by apply get_bal_missing|]. split; [by apply Hbuild|].
  split; [intros; by apply Hreport|].
  intros sender replyto full rest Hq.
  rewrite (trader_background_report _ _ _ _ _ _ _ Hq).
  rewrite Hreport by done. done.
Qed.

End Executor.

Lemma report_of_unknown_account_sends_nothing_witness :
  let e := Sample.env_at 1000 HttpError in
  let w := run Sample.cfg (EPort Sample.alice ["bob"]) e init in
  balances w !! "bob" = None
  ∧ asyncq w = [QPortReport "bob" "alice" "#chan" false]
  ∧ trader_background Sample.cfg e w = (Ok tt, with_asyncq (λ _, []) w)
  ∧ outbox (trader_background Sample.cfg e w).2 = outbox w.
Proof.
  cbv zeta.
  assert (balances (run Sample.cfg (EPort Sample.alice ["bob"])
                      (Sample.env_at 1000 HttpError) init) !! "bob" = None) as Hb
    by (vm_compute; reflexivity).
  assert (asyncq (run Sample.cfg (EPort Sample.alice ["bob"])
                    (Sample.env_at 1000 HttpError) init)
          = [QPortReport "bob" "alice" "#chan" false]) as Hq
    by (vm_compute; reflexivity).
  split; [exact Hb|]. split; [exact Hq|].
  exact (proj2 (proj2 (proj2 (report_of_unknown_account_sends_nothing Sample.cfg
           "bob" (Sample.env_at 1000 HttpError) _ Hb))) "alice" "#chan" false [] Hq).
Defined.

Section Validation.

Variable cfg : config.

Lemma check_nick_eq n e w :
  check_nick cfg n e w
  = (Ok tt, match balances w !! n with
            | Some _ => w
            | None => with_balances <[n := startbalance cfg * 100]> w
            end).
Proof.
  unfold check_nick, nick_exists, set_bal, bind, get, ret, modify.
  destruct (balances w !! n) as [c|] eqn:H.
  - rewrite bool_decide_eq_true_2; [done|by eexists].
  - rewrite bool_decide_eq_false_2; [done|]. by intros [? ?].
Qed.

(** A command with a malformed symbol or a non-positive amount: nothing
    is sent, nothing is queued; the sender's account has been set up. *)
Lemma cmd_trade_dropped is_buy msg a0 a1 more n e w :
  Py.int_of_str a0 = Some n → checksym a1 = None ∨ n ≤ 0 →
  cmd_trade cfg is_buy msg (a0 :: a1 :: more) e w
  = (Ok tt, match balances w !! prefix_nick msg with
            | Some _ => w
            | None => with_balances <[prefix_nick msg := startbalance cfg * 100]> w
            end).
Proof.
  intros Hn Hbad. unfold cmd_trade. unfold bind at 1. rewrite check_nick_eq.
  unfold arg, parse_int.
  change ((a0 :: a1 :: more) !! 0%nat) with (Some a0).
  change ((a0 :: a1 :: more) !! 1%nat) with (Some a1).
  unfold bind, ret. rewrite Hn.
  destruct Hbad as [-> | Hle]; [done|].
  destruct (checksym a1) as [[|c r]|]; [done| |done].
  by apply Z.leb_le in Hle as ->.
Qed.

Lemma say_frame d t w :
  ledger (say d t w) = ledger w ∧ asyncq (say d t w) = asyncq w
  ∧ outbox (say d t w) = outbox w ++ [{| dest := d; body := t |}].
Proof. done. Qed.

(** C8, as the code has it.  A trade the executor rejects for lack of
    funds or of shares, or whose quote cannot be had (unknown symbol,
    failed request), is answered by one message to the trade's reply
    destination, leaves the ledger as it was and is gone from the queue.
    A command with a malformed symbol or a non-positive amount is dropped
    by the handler: nothing is sent and nothing is queued, holdings and
    trade log are untouched, and the only write is the starting balance of
    a sender who had no account. *)
Theorem validation_failures e w :
  (∀ t rest,
     asyncq w = QTrade t :: rest →
     let w0 := with_asyncq (λ _, rest) w in
     let w' := (trader_background cfg e w).2 in
     ((∃ x, (get_price (symbol t) (tcachesecs cfg) e w0).1 = Raise x) →
        outbox w' = outbox w ++ [{| dest := replyto t; body := TAborted (nick t) |}]
        ∧ ledger w' = ledger w ∧ asyncq w' = rest)
     ∧ (∀ p nickbal,
          (get_price (symbol t) (tcachesecs cfg) e w0).1 = Ok (VDec p) →
          balances w !! nick t = Some nickbal →
          symbol t = Py.upper (symbol t) →
          (buy t = true → nickbal < price_rounded_of p (amount t) →
             outbox w' = outbox w ++
               [{| dest := replyto t;
                   body := TCantAfford (nick t) (price_rounded_of p (amount t)) |}]
             ∧ ledger w' = ledger w ∧ asyncq w' = rest)
          ∧ (buy t = false →
             default 0 (holdings w !! (nick t, symbol t)) < amount t →
             outbox w' = outbox w ++
               [{| dest := replyto t; body := TNotThatMany (nick t) |}]
             ∧ ledger w' = ledger w ∧ asyncq w' = rest)))
  ∧ (∀ is_buy msg a0 a1 more n,
       Py.int_of_str a0 = Some n → checksym a1 = None ∨ n ≤ 0 →
       let w' := (cmd_trade cfg is_buy msg (a0 :: a1 :: more) e w).2 in
       outbox w' = outbox w ∧ asyncq w' = asyncq w
       ∧ holdings w' = holdings w ∧ trades w' = trades w
       ∧ balances w' = match balances w !! prefix_nick msg with
                       | Some _ => balances w
                       | None => <[prefix_nick msg := startbalance cfg * 100]> (balances w)
                       end).
Proof.
  split.
  - intros t rest Hq. cbv zeta.
    rewrite (trader_background_trade _ _ _ _ _ Hq). cbn [snd].
    rewrite do_trade_eq.
    pose proof (get_price_frame (symbol t) (tcachesecs cfg) e
                  (with_asyncq (λ _, rest) w)) as Hf.
    destruct (get_price (symbol t) (tcachesecs cfg) e (with_asyncq (λ _, rest) w))
      as [[v|x] w1]; cbn [fst snd] in *.
    all: assert (balances w1 = balances w ∧ holdings w1 = holdings w
                 ∧ trades w1 = trades w ∧ asyncq w1 = rest ∧ outbox w1 = outbox w)
           as (Hb & Hh & Ht & Ha & Ho)
           by (unfold non_cache in Hf; simpl in Hf; by simplify_eq).
    all: assert (ledger w1 = ledger w) as Hl by (unfold ledger; congruence).
    + split; [by intros [? ?]|].
      intros p nickbal [= ->] Hbal Hup.
      rewrite Hb, Hbal. rewrite bool_decide_eq_true_2 by done. cbv zeta.
      rewrite Hh.
      split; intros Hside Hlt; rewrite Hside; cbn [negb andb].
      * apply Z.ltb_lt in Hlt as ->. simpl. by rewrite Ho.
      * apply Z.ltb_lt in Hlt as ->. simpl. by rewrite Ho.
    + split; [|by intros ? ? ?].
      intros _. simpl. by rewrite Ho.
  - intros is_buy msg a0 a1 more n Hn Hbad. cbv zeta.
    rewrite (cmd_trade_dropped _ _ _ _ _ _ _ _ Hn Hbad). cbn [snd].
    by destruct (balances w !! prefix_nick msg).
Qed.

End Validation.

Lemma validation_failures_witness :
  let e := Sample.env_at 1000 HttpError in
  let w := Sample.w_alice in
  let w' := (cmd_trade Sample.cfg true Sample.alice ["1"; "sym1"] e w).2 in
  Py.int_of_str "1" = Some 1
  ∧ checksym "sym1" = None
  ∧ outbox w' = outbox w ∧ asyncq w' = asyncq w
  ∧ holdings w' = holdings w ∧ trades w' = trades w
  ∧ balances w' = match balances w !! "alice" with
                  | Some _ => balances w
                  | None => <["alice" := startbalance Sample.cfg * 100]> (balances w)
                  end.
Proof.
  cbv zeta.
  assert (Py.int_of_str "1" = Some 1) as Hn by reflexivity.
  assert (checksym "sym1" = None) as Hs by (vm_compute; reflexivity).
  split; [exact Hn|]. split; [exact Hs|].
  exact (proj2 (validation_failures Sample.cfg (Sample.env_at 1000 HttpError)
                  Sample.w_alice)
               true Sample.alice "1" "sym1" [] 1 Hn (or_introl Hs)).
Defined.

(** C8 as stated fails: a buy of 0 shares by a nick without an account is
    answered by nothing and queues nothing, yet writes a balance row; a
    buy of a malformed symbol is answered by nothing either. *)
Lemma dropped_commands_are_not_reported :
  let e := Sample.env_at 1000 HttpError in
  let w1 := run Sample.cfg (EBuy Sample.alice ["0"; "SYM"]) e init in
  let w2 := run Sample.cfg (EBuy Sample.alice ["1"; "sym1"]) e Sample.w_alice in
  outbox w1 = [] ∧ asyncq w1 = []
  ∧ balances init !! "alice" = None ∧ balances w1 !! "alice" = Some 10000
  ∧ outbox w2 = [] ∧ asyncq w2 = [].
Proof.
  cbv zeta.
  split; [vm_compute; reflexivity|].
  split; [vm_compute; reflexivity|].
  split; [vm_compute; reflexivity|].
  split; [vm_compute; reflexivity|].
  split; vm_compute; reflexivity.
Qed.

Section Sorting.

Context {A : Type} (le : A → A → bool).

Lemma insert_by_perm x l : insert_by le x l ≡ₚ x :: l.
Proof.
  induction l as [|y l IH]; simpl; [done|].
  destruct (le x y); [done|].
  rewrite IH. apply Permutation_swap.
Qed.

Lemma sort_by_perm l : sort_by le l ≡ₚ l.
Proof.
  induction l as [|x l IH]; simpl; [done|].
  unfold sort_by in *. simpl. by rewrite insert_by_perm, IH.
Qed.

Hypothesis le_total : ∀ a b, le a b = false → le b a = true.
Hypothesis le_trans : ∀ a b c, le a b = true → le b c = true → le a c = true.

Lemma insert_by_sorted x l :
  StronglySorted (λ a b, le a b = true) l →
  StronglySorted (λ a b, le a b = true) (insert_by le x l).
Proof.
  induction 1 as [|y l Hs IH Hall]; simpl.
  - by repeat constructor.
  - destruct (le x y) eqn:Hxy.
    + constructor; [by constructor|].
      constructor; [done|].
      eapply Forall_impl; [exact Hall|]. intros z Hz. by eapply le_trans.
    + constructor; [done|].
      rewrite insert_by_perm. constructor; [by apply le_total|done].
Qed.

Lemma sort_by_sorted l : StronglySorted (λ a b, le a b = true) (sort_by le l).
Proof.
  induction l as [|x l IH]; [constructor|].
  unfold sort_by in *. simpl. by apply insert_by_sorted.
Qed.

End Sorting.

Lemma StronglySorted_weaken {A} (R1 R2 : A → A → Prop) l :
  (∀ a b, R1 a b → R2 a b) → StronglySorted R1 l → StronglySorted R2 l.
Proof.
  intros Himp. induction 1 as [|x l Hs IH Hall]; constructor; [done|].
  eapply Forall_impl; [exact Hall|]. intros b. apply Himp.
Qed.

Section CostBasis.

Lemma select_trades_sorted n s log :
  StronglySorted (λ a b, tr_time b ≤ tr_time a) (select_trades n s log).
Proof.
  unfold select_trades.
  eapply StronglySorted_weaken; [|apply (sort_by_sorted time_desc)].
  - intros a b H. unfold time_desc in H. lia.
  - intros a b H. unfold time_desc in *. lia.
  - intros a b c H1 H2. unfold time_desc in *. lia.
Qed.

Lemma count_sum_snoc rows row :
  count_sum (rows ++ [row]) = count_sum rows + tr_count row * sign_of row.
Proof. unfold count_sum. induction rows as [|r rows IH]; simpl; lia. Qed.

(** The loop stops after the first row at which the running count is the
    target, or at the end of the rows. *)
Lemma backtrack_walk target rows count spent :
  ∃ k, (k ≤ length rows)%nat
    ∧ (∀ j, (0 < j < k)%nat → count + count_sum (take j rows) ≠ target)
    ∧ (k = length rows ∨ ((0 < k)%nat ∧ count + count_sum (take k rows) = target))
    ∧ backtrack target rows count spent
      = (count + count_sum (take k rows), spent + spent_sum (take k rows)).
Proof.
  revert count spent. induction rows as [|row rows IH]; intros count spent.
  - exists 0%nat. simpl. repeat split; [lia|lia|by left|]. f_equal; lia.
  - simpl. fold (sign_of row).
    destruct (count + tr_count row * sign_of row =? target) eqn:Hstop.
    + apply Z.eqb_eq in Hstop.
      exists 1%nat. simpl. rewrite ?take_0. simpl.
      repeat split; [lia|lia|right; split; [lia|lia]|]. f_equal; lia.
    + apply Z.eqb_neq in Hstop.
      destruct (IH (count + tr_count row * sign_of row)
                   (spent + tr_price row * sign_of row))
        as (k & Hlen & Hbefore & Hat & Heq).
      exists (S k). simpl. repeat split.
      * lia.
      * intros j Hj. destruct j as [|j]; [lia|]. simpl.
        destruct j as [|j].
        -- rewrite ?take_0. simpl. lia.
        -- specialize (Hbefore (S j) ltac:(lia)). lia.
      * destruct Hat as [->|[Hk Ht]]; [by left|right]. split; [lia|lia].
      * rewrite Heq. f_equal; lia.
Qed.

(** C7. For an upper-case symbol, [calc_user_avgbuy] reads the account's
    rows of the symbol newest first (a rearrangement of these rows of the
    log, in non-increasing order of time), adds up signed counts and
    signed prices (buys plus, sells minus) over the first [k] rows, where
    [k] is the first row after which the running count is the count
    held, or the number of rows when there is no such row, and returns
    spent / 100 / count, or zero when the running count is zero. *)
Theorem calc_user_avgbuy_walk n s e w :
  s = Py.upper s →
  let target := default 0 (holdings w !! (n, s)) in
  let rows := select_trades n s (trades w) in
  StronglySorted (λ a b, tr_time b ≤ tr_time a) rows
  ∧ rows ≡ₚ filter (λ r, tr_nick r = n ∧ tr_symbol r = s) (trades w)
  ∧ ∃ k, (k ≤ length rows)%nat
      ∧ (∀ j, (0 < j < k)%nat → count_sum (take j rows) ≠ target)
      ∧ (k = length rows ∨ ((0 < k)%nat ∧ count_sum (take k rows) = target))
      ∧ calc_user_avgbuy n s e w
        = (Ok (if count_sum (take k rows) =? 0 then 0%Q
               else (inject_Z (spent_sum (take k rows)) / 100
                     / inject_Z (count_sum (take k rows)))%Q), w).
Proof.
  intros Hup. cbv zeta.
  split; [apply select_trades_sorted|].
  split; [apply sort_by_perm|].
  destruct (backtrack_walk (default 0 (holdings w !! (n, s)))
              (select_trades n s (trades w)) 0 0)
    as (k & Hlen & Hbefore & Hat & Heq).
  exists k. split; [done|]. split; [|split].
  - intros j Hj. specialize (Hbefore j Hj). lia.
  - destruct Hat as [->|[Hk Ht]]; [by left|right]. split; [done|lia].
  - unfold calc_user_avgbuy, get_holding.
    rewrite bool_decide_eq_true_2 by done.
    unfold bind, get, ret. rewrite Heq. rewrite !Z.add_0_l.
    by destruct (count_sum (take k (select_trades n s (trades w))) =? 0).
Qed.

End CostBasis.

(** alice's position of 10 SYM bought for 10000 cents: $10.00 a share. *)
Lemma calc_user_avgbuy_walk_witness :
  let e := Sample.env_at 1500 HttpError in
  "SYM" = Py.upper "SYM"
  ∧ ∃ k, (∀ j, (0 < j < k)%nat →
            count_sum (take j (select_trades "alice" "SYM" (trades Sample.w_bought)))
            ≠ default 0 (holdings Sample.w_bought !! ("alice", "SYM")))
      ∧ calc_user_avgbuy "alice" "SYM" e Sample.w_bought
        = (Ok (if count_sum (take k (select_trades "alice" "SYM" (trades Sample.w_bought)))
                  =? 0 then 0%Q
               else (inject_Z (spent_sum
                       (take k (select_trades "alice" "SYM" (trades Sample.w_bought)))) / 100
                     / inject_Z (count_sum
                       (take k (select_trades "alice" "SYM" (trades Sample.w_bought)))))%Q),
           Sample.w_bought).
Proof.
  cbv zeta.
  assert ("SYM" = Py.upper "SYM") as Hup by reflexivity.
  split; [exact Hup|].
  destruct (calc_user_avgbuy_walk "alice" "SYM" (Sample.env_at 1500 HttpError)
              Sample.w_bought Hup) as (_ & _ & k & _ & Hbefore & _ & Heq).
  exists k. split; [exact Hbefore|exact Heq].
Defined.

Section ReportFrame.

Variable cfg : config.

(** Reports read the ledger and the history, and may refresh quotes: an
    invariant of [get_price] is an invariant of [build_report]. *)

Context (E : env → Prop) (P : world → Prop).

Lemma inv_get_holding n s : inv E P (get_holding n s).
Proof. unfold get_holding. repeat inv_step. Qed.

Lemma inv_calc_user_avgbuy n s : inv E P (calc_user_avgbuy n s).
Proof.
  unfold calc_user_avgbuy. inv_step; [apply inv_get_holding|].
  repeat inv_step.
Qed.

Lemma inv_to_decimal v : inv E P (to_decimal v).
Proof. unfold to_decimal. repeat inv_step. Qed.

Hypothesis inv_get_price : ∀ s T, inv E P (get_price s T).

Lemma inv_report_rows n rows hv acc : inv E P (report_rows cfg n rows hv acc).
Proof.
  revert hv acc. induction rows as [|row rows IH]; intros hv acc; simpl.
  - apply inv_ret.
  - inv_step; [apply inv_get_price|].
    inv_step; [apply inv_to_decimal|].
    inv_step; [apply inv_calc_user_avgbuy|].
    apply IH.
Qed.

Lemma inv_build_report n : inv E P (build_report cfg n).
Proof.
  unfold build_report, get_bal, get_latest_hist_bal.
  inv_step; [repeat inv_step|].
  inv_step; [repeat inv_step|].
  inv_step; [apply inv_report_rows|].
  repeat inv_step.
Qed.

End ReportFrame.

Lemma build_report_frame cfg n e w :
  non_cache (build_report cfg n e w).2 = non_cache w.
Proof.
  apply (inv_build_report cfg (λ _, True) (λ w', non_cache w' = non_cache w));
    [|done..].
  intros s T e' w' _ H. by rewrite get_price_frame.
Qed.

Section Nightly.

Variable cfg : config.

Lemma day_rows_nil n day H :
  day_rows n day H = [] ↔ ¬ Exists (λ h, h_nick h = n ∧ h_day h = day) H.
Proof.
  unfold day_rows. induction H as [|h H IH]; simpl.
  - split; [intros _ Hex; inversion Hex|done].
  - rewrite filter_cons. case_decide as Hk.
    + split; [done|]. intros Hne. destruct Hne. by constructor.
    + rewrite IH. split.
      * intros Hne Hex. inversion Hex; simplify_eq; tauto.
      * intros Hne Hex. apply Hne. by constructor.
Qed.

Lemma day_rows_app n day H1 H2 :
  day_rows n day (H1 ++ H2) = day_rows n day H1 ++ day_rows n day H2.
Proof. unfold day_rows. apply filter_app. Qed.

Lemma hist_pk_snoc H n day c :
  hist_pk H → ¬ Exists (λ h, h_nick h = n ∧ h_day h = day) H →
  hist_pk (H ++ [{| h_nick := n; h_day := day; h_cents := c |}]).
Proof.
  intros Hpk Hnew n' day'. rewrite day_rows_app, length_app.
  specialize (Hpk n' day').
  unfold day_rows at 2. rewrite filter_cons, filter_nil. simpl.
  case_decide as Hk; simpl; [|lia].
  destruct Hk as [<- <-]. apply day_rows_nil in Hnew. rewrite Hnew. simpl. lia.
Qed.

Lemma recorded_iff n day H :
  n ∈ (h_nick <$> filter (λ h, h_day h = day) H)
  ↔ Exists (λ h, h_nick h = n ∧ h_day h = day) H.
Proof.
  rewrite list_elem_of_fmap, Exists_exists. split.
  - intros (h & -> & Hin). apply list_elem_of_filter in Hin as [Hd Hin].
    exists h. split; [done|done].
  - intros (h & Hin & <- & Hd). exists h. split; [done|].
    apply list_elem_of_filter. split; [done|done].
Qed.

Lemma snapshot_cases day row e w r w' :
  snapshot cfg day row e w = (r, w') →
  balances w' = balances w
  ∧ ((r = Ok tt
      ∧ ¬ Exists (λ h, h_nick h = row.1 ∧ h_day h = day) (balance_history w)
      ∧ ∃ c, balance_history w'
             = balance_history w ++ [{| h_nick := row.1; h_day := day; h_cents := c |}])
     ∨ ((∃ x, r = Raise x) ∧ balance_history w' = balance_history w)).
Proof.
  unfold snapshot, bind. intros Hs.
  pose proof (build_report_frame cfg row.1 e w) as Hf.
  destruct (build_report cfg row.1 e w) as [[data|x] w1]; cbn [fst snd] in *.
  all: assert (balances w1 = balances w ∧ balance_history w1 = balance_history w)
         as [Hb Hh] by (unfold non_cache in Hf; by simplify_eq).
  - unfold insert_history, bind, get, raise, modify in Hs.
    case_bool_decide as Hex; simplify_eq; cbn [balances balance_history with_history].
    + split; [done|]. right. split; [by eexists|done].
    + split; [done|]. left. rewrite <- Hh. split; [done|]. split; [done|].
      by eexists.
  - simplify_eq. split; [done|]. right. split; [by eexists|done].
Qed.

Lemma for_each_snapshot day rs e w :
  let r := (for_each rs (snapshot cfg day) e w).1 in
  let w' := (for_each rs (snapshot cfg day) e w).2 in
  balances w' = balances w
  ∧ (hist_pk (balance_history w) → hist_pk (balance_history w'))
  ∧ ∃ new, balance_history w' = balance_history w ++ new
      ∧ Forall (λ h, h_day h = day) new
      ∧ (r = Ok tt → h_nick <$> new = rs.*1).
Proof.
  cbv zeta. revert w. induction rs as [|row rs IH]; intros w.
  - simpl. split; [done|]. split; [done|]. exists []. by rewrite app_nil_r.
  - simpl. unfold bind.
    destruct (snapshot cfg day row e w) as [r1 w1] eqn:Hs.
    destruct (snapshot_cases _ _ _ _ _ _ Hs)
      as [Hb [(-> & Hnew & c & Hh)|[[x ->] Hh]]].
    + destruct (IH w1) as (Hb' & Hpk' & new & Hh' & Hday & Hnicks).
      split; [congruence|]. split.
      * intros Hpk. apply Hpk'. rewrite Hh. by apply hist_pk_snoc.
      * exists ({| h_nick := row.1; h_day := day; h_cents := c |} :: new).
        rewrite Hh', Hh, <- app_assoc. split; [done|].
        split; [by constructor|].
        intros Hr. rewrite !fmap_cons. f_equal. by apply Hnicks.
    + cbn [fst snd]. split; [done|]. split; [by rewrite Hh|].
      exists []. rewrite app_nil_r. done.
Qed.

Lemma record_nightly_balances_eq e w :
  record_nightly_balances cfg e w
  = for_each (select_unrecorded (today e) w) (snapshot cfg (today e)) e w.
Proof. reflexivity. Qed.

Lemma filter_none {A} (P : A → Prop) `{∀ x, Decision (P x)} (l : list A) :
  Forall (λ x, ¬ P x) l → filter P l = [].
Proof.
  induction 1 as [|x l Hx _ IH]; [done|].
  rewrite filter_cons. by rewrite decide_False.
Qed.

(** C9, as the code has it.  Two runs of [record_nightly_balances] in
    the same day, the history having at most one row for a nick and a day
    before them: it still has after each run; and when the first run ends
    without an exception, it has exactly one row of that day for every
    account, and the second run changes nothing at all.  A run that an
    exception ends leaves the accounts it has not reached without a
    row. *)
Theorem nightly_snapshot_idempotent e1 e2 w :
  today e1 = today e2 →
  hist_pk (balance_history w) →
  let r1 := (record_nightly_balances cfg e1 w).1 in
  let w1 := (record_nightly_balances cfg e1 w).2 in
  let w2 := (record_nightly_balances cfg e2 w1).2 in
  hist_pk (balance_history w1)
  ∧ hist_pk (balance_history w2)
  ∧ (r1 = Ok tt →
     (∀ n, is_Some (balances w !! n) →
        length (day_rows n (today e1) (balance_history w1)) = 1%nat)
     ∧ record_nightly_balances cfg e2 w1 = (Ok tt, w1)).
Proof.
  intros Hday Hpk. cbv zeta. rewrite !record_nightly_balances_eq.
  destruct (for_each_snapshot (today e1) (select_unrecorded (today e1) w) e1 w)
    as (Hb & Hpk1 & new & Hh & Hdays & Hnicks).
  set (w1 := (for_each (select_unrecorded (today e1) w) (snapshot cfg (today e1)) e1 w).2) in *.
  specialize (Hpk1 Hpk).
  destruct (for_each_snapshot (today e2) (select_unrecorded (today e2) w1) e2 w1)
    as (_ & Hpk2 & _).
  split; [done|]. split; [by apply Hpk2|].
  intros Hok. specialize (Hnicks Hok).
  assert (∀ n, is_Some (balances w !! n) →
               Exists (λ h, h_nick h = n ∧ h_day h = today e1) (balance_history w1))
    as Hall.
  { intros n [c Hn]. rewrite Hh. apply Exists_app.
    destruct (decide (n ∈ (h_nick <$> filter (λ h, h_day h = today e1) (balance_history w))))
      as [Hrec|Hrec].
    - left. by apply recorded_iff.
    - right. assert (n ∈ (select_unrecorded (today e1) w).*1) as Hsel.
      { apply list_elem_of_fmap. exists (n, c). split; [done|].
        unfold select_unrecorded. apply list_elem_of_filter. split; [done|].
        by apply elem_of_map_to_list. }
      rewrite <- Hnicks in Hsel. apply list_elem_of_fmap in Hsel as (h & -> & Hin).
      apply Exists_exists. exists h. split; [done|].
      split; [done|]. rewrite Forall_forall in Hdays. by apply Hdays. }
  split.
  - intros n Hn. specialize (Hall n Hn). specialize (Hpk1 n (today e1)).
    destruct (day_rows n (today e1) (balance_history w1)) as [|h l] eqn:Hrows.
    + apply day_rows_nil in Hrows. done.
    + simpl in *. lia.
  - assert (select_unrecorded (today e2) w1 = []) as ->; [|done].
    unfold select_unrecorded. apply filter_none.
    apply Forall_forall. intros [n c] Hin Hnot. apply Hnot. simpl.
    apply elem_of_map_to_list in Hin. rewrite Hb in Hin.
    apply recorded_iff. rewrite <- Hday. apply Hall. by eexists.
Qed.

End Nightly.

(** The snapshot of the day after alice's first buy. *)
Lemma nightly_snapshot_idempotent_witness :
  let e1 := Sample.env_at 5000 HttpError in
  let e2 := Sample.env_at 9000 HttpError in
  let w := Sample.w_bought in
  let w1 := (record_nightly_balances Sample.cfg e1 w).2 in
  today e1 = today e2
  ∧ hist_pk (balance_history w)
  ∧ (record_nightly_balances Sample.cfg e1 w).1 = Ok tt
  ∧ length (day_rows "alice" (today e1) (balance_history w1)) = 1%nat
  ∧ length (day_rows DUSTACCT (today e1) (balance_history w1)) = 1%nat
  ∧ record_nightly_balances Sample.cfg e2 w1 = (Ok tt, w1).
Proof.
  cbv zeta.
  assert (hist_pk (balance_history Sample.w_bought)) as Hpk.
  { intros n day. vm_compute. lia. }
  assert ((record_nightly_balances Sample.cfg (Sample.env_at 5000 HttpError)
             Sample.w_bought).1 = Ok tt) as Hok by (vm_compute; reflexivity).
  destruct (nightly_snapshot_idempotent Sample.cfg (Sample.env_at 5000 HttpError)
              (Sample.env_at 9000 HttpError) Sample.w_bought eq_refl Hpk)
    as (_ & _ & Hboth).
  destruct (Hboth Hok) as [Hone Hsame].
  split; [reflexivity|]. split; [exact Hpk|]. split; [exact Hok|].
  split; [apply Hone; vm_compute; by eexists|].
  split; [apply Hone; vm_compute; by eexists|].
  exact Hsame.
Defined.

(** C9 as stated fails.  alice holds SYM, the cached quote is older than
    the threshold of reports and the upstream request fails: the sweep
    raises at alice's report, and after two runs in the same day alice has
    no row of that day; when the upstream answers at the second run, that
    run does insert alice's row. *)
Lemma failed_sweep_leaves_account_unrecorded :
  let e1 := Sample.env_at 100000 HttpError in
  let e2 := Sample.env_at 100100 HttpError in
  let e3 := Sample.env_at 100100 (Body (Some (Sample.quote "10.00"))) in
  let w1 := (record_nightly_balances Sample.cfg e1 Sample.w_bought).2 in
  today e1 = today e2
  ∧ is_Some (balances Sample.w_bought !! "alice")
  ∧ hist_pk (balance_history Sample.w_bought)
  ∧ (record_nightly_balances Sample.cfg e1 Sample.w_bought).1 = Raise RequestError
  ∧ day_rows "alice" (today e1) (balance_history w1) = []
  ∧ day_rows "alice" (today e1)
      (balance_history (record_nightly_balances Sample.cfg e2 w1).2) = []
  ∧ length (balance_history (record_nightly_balances Sample.cfg e3 w1).2)
    = S (length (balance_history w1)).
Proof.
  cbv zeta.
  split; [reflexivity|].
  split; [vm_compute; by eexists|].
  split; [intros n day; vm_compute; lia|].
  split; [vm_compute; reflexivity|].
  split; [vm_compute; reflexivity|].
  split; vm_compute; reflexivity.
Qed.

Section NonNegative.

Variable cfg : config.
Hypothesis startbalance_nonneg : 0 ≤ startbalance cfg.

Lemma get_priceinfo_cached_prices s T e w :
  prices (get_priceinfo_cached s T e w).2 = prices w
  ∨ ∃ data, upstream e s = Body (Some data) ∧ reformat data ≠ ∅
      ∧ prices (get_priceinfo_cached s T e w).2
        = <[s := (now e, reformat data)]> (prices w).
Proof.
  unfold get_priceinfo_cached, _get_cache_priceinfo, fetch_priceinfo,
    _set_cache_priceinfo. unfold_M.
  destruct (upstream e s) as [|[data|]] eqn:Hup.
  all: repeat case_match; simplify_eq/=; try (by left).
  all: unfold truthy in *; repeat case_match; simplify_eq/=; try (by left).
  all: right; eexists; split; [done|]; split; [|done].
  all: by match goal with H : bool_decide _ = true |- _ => apply bool_decide_eq_true in H end.
Qed.

Lemma get_price_prices s T e w :
  prices (get_price s T e w).2 = prices w
  ∨ ∃ data, upstream e s = Body (Some data) ∧ reformat data ≠ ∅
      ∧ prices (get_price s T e w).2 = <[s := (now e, reformat data)]> (prices w).
Proof.
  unfold get_price, bind.
  pose proof (get_priceinfo_cached_prices s (or_60 T) e w) as H.
  destruct (get_priceinfo_cached s (or_60 T) e w) as [[info|x] w']; [|done].
  simpl in H. by destruct (info !! "price").
Qed.

Lemma inv_get_price_sound s T : inv quotes_nonneg sound (get_price s T).
Proof.
  intros e w He (Hl & Hc & Hq).
  pose proof (get_price_frame s T e w) as Hf. unfold non_cache in Hf.
  set (w' := (get_price s T e w).2) in *.
  assert (balances w' = balances w ∧ holdings w' = holdings w ∧ asyncq w' = asyncq w)
    as (Hb & Hh & Ha) by by simplify_eq.
  split; [|split].
  - unfold ledger_nonneg. by rewrite Hb, Hh.
  - destruct (get_price_prices s T e w) as [Hp|(data & Hup & _ & Hp)];
      fold w' in Hp; unfold cache_nonneg; rewrite Hp; [done|].
    intros s' t d str p Hrow Hstr Hdec.
    destruct (decide (s = s')) as [<-|Hne].
    + rewrite lookup_insert_eq in Hrow. simplify_eq. by eapply He.
    + rewrite lookup_insert_ne in Hrow by done. by eapply Hc.
  - unfold queue_positive. by rewrite Ha.
Qed.

Lemma price_rounded_of_nonneg p n : (0 <= p)%Q → 0 < n → 0 ≤ price_rounded_of p n.
Proof.
  intros Hp Hn. unfold price_rounded_of, Py.ceil.
  change 0 with (Qceiling 0). apply Qceiling_resp_le.
  apply Qmult_le_0_compat; [|done].
  apply Qmult_le_0_compat; [done|].
  change 0%Q with (inject_Z 0). rewrite <- Zle_Qle. lia.
Qed.

Lemma sound_say d t w : sound w → sound (say d t w).
Proof. done. Qed.

(** A trade of a positive number of shares keeps balances and holdings
    from going negative. *)
Lemma do_trade_sound t e w :
  0 < amount t → quotes_nonneg e → sound w → sound (do_trade cfg t e w).2.
Proof.
  intros Hn He Hw. rewrite do_trade_eq.
  pose proof (inv_get_price_sound (symbol t) (tcachesecs cfg) e w He Hw) as Hw1.
  destruct (get_price (symbol t) (tcachesecs cfg) e w) as [[v|x] w1] eqn:Hp;
    cbn [fst snd] in *; [|by apply sound_say].
  apply get_price_Ok in Hp as (tm & d & str & p & Hrow & Hstr & Hdec & ->).
  destruct Hw1 as ((Hbal & Hhold) & Hc & Hq).
  assert (0 <= p)%Q as Hp0 by by eapply Hc.
  pose proof (price_rounded_of_nonneg p (amount t) Hp0 Hn) as Hpr.
  destruct (balances w1 !! nick t) as [nickbal|] eqn:Hb; [|done].
  pose proof (Hbal _ _ Hb) as Hnb. cbv beta in Hnb.
  case_bool_decide; [|done]. cbv zeta.
  assert (0 ≤ default 0 (holdings w1 !! (nick t, symbol t))) as Hcount.
  { destruct (holdings w1 !! (nick t, symbol t)) as [c|] eqn:Hh; simpl; [|lia].
    apply (Hhold _ _ Hh). }
  destruct (buy t && _) eqn:Hbuy; [done|].
  destruct (negb (buy t) && _) eqn:Hsell; [done|].
  assert (map_Forall (λ _ c, 0 ≤ c)
            (balances (traded t p nickbal
                         (default 0 (holdings w1 !! (nick t, symbol t))) w1))) as Hbal2.
  { simpl. apply map_Forall_insert_2; [|done].
    destruct (buy t); simpl in *; lia. }
  assert (map_Forall (λ _ c, 0 ≤ c)
            (holdings (traded t p nickbal
                         (default 0 (holdings w1 !! (nick t, symbol t))) w1))) as Hhold2.
  { simpl. apply map_Forall_insert_2; [|done].
    destruct (buy t); simpl in *; lia. }
  destruct (balances (traded t p nickbal _ w1) !! DUSTACCT) as [dustbal|] eqn:Hd.
  - split; [split|done]; [|done].
    simpl. apply map_Forall_insert_2; [|done].
    pose proof (Hbal2 _ _ Hd) as Hd0. cbv beta in Hd0.
    pose proof (dust_credit_bounds p (amount t)). lia.
  - by split.
Qed.

Lemma inv_do_report lookup sender replyto full :
  inv quotes_nonneg sound (do_report cfg lookup sender replyto full).
Proof.
  unfold do_report.
  inv_step; [apply inv_build_report; apply inv_get_price_sound|].
  repeat inv_step; done.
Qed.

Lemma inv_record_nightly_balances :
  inv quotes_nonneg sound (record_nightly_balances cfg).
Proof.
  unfold record_nightly_balances, insert_history.
  inv_step; [inv_step|]. inv_step; [inv_step|]. inv_step.
  inv_step; [apply inv_build_report; apply inv_get_price_sound|].
  repeat inv_step; done.
Qed.

Lemma inv_do_tasks : inv quotes_nonneg sound (do_tasks cfg).
Proof.
  unfold do_tasks.
  inv_step; [inv_step|]. inv_step; [inv_step|]. inv_step; [inv_step|].
  inv_step; [inv_step; done|]. apply inv_record_nightly_balances.
Qed.

Lemma trader_background_sound e w :
  quotes_nonneg e → sound w → sound (trader_background cfg e w).2.
Proof.
  intros He Hw.
  destruct (asyncq w) as [|[t|lookup sender replyto full] rest] eqn:Hq.
  - unfold trader_background, try_except, bind, get. rewrite Hq.
    pose proof (inv_do_tasks e w He Hw) as H.
    by destruct (do_tasks cfg e w) as [[[]|x] w'].
  - rewrite (trader_background_trade _ _ _ _ _ Hq). cbn [snd].
    destruct Hw as (Hl & Hc & Hpos). unfold queue_positive in Hpos.
    rewrite Hq in Hpos. apply Forall_cons in Hpos as [Hn Hrest].
    by apply do_trade_sound.
  - rewrite (trader_background_report _ _ _ _ _ _ _ _ Hq). cbn [snd].
    destruct Hw as (Hl & Hc & Hpos). unfold queue_positive in Hpos.
    rewrite Hq in Hpos. apply Forall_cons in Hpos as [_ Hrest].
    by apply inv_do_report.
Qed.

Lemma price_updater_sound e w :
  quotes_nonneg e → sound w → sound (price_updater e w).2.
Proof.
  apply (inv_try_except quotes_nonneg sound); [|apply inv_ret].
  inv_step; [inv_step|]. inv_step; [|inv_step].
  destruct p as [[|c r] ?]; [inv_step|].
  inv_step; [apply inv_get_price_sound|inv_step].
Qed.

Lemma inv_check_nick n : inv quotes_nonneg sound (check_nick cfg n).
Proof.
  unfold check_nick, nick_exists, set_bal. repeat inv_step.
  destruct H as ((Hb & Hh) & Hc & Hq). split; [split|done]; [|done].
  simpl. apply map_Forall_insert_2; [lia|done].
Qed.

Lemma inv_cmd_trade is_buy msg args : inv quotes_nonneg sound (cmd_trade cfg is_buy msg args).
Proof.
  unfold cmd_trade, arg, parse_int.
  inv_step; [apply inv_check_nick|].
  inv_step; [repeat inv_step|]. inv_step; [repeat inv_step|].
  inv_step; [repeat inv_step|].
  match goal with
  | |- inv _ _ (match checksym ?a with _ => _ end) =>
      destruct (checksym a) as [[|c r]|]; [inv_step| |inv_step]
  end.
  match goal with
  | |- inv _ _ (if ?n <=? 0 then _ else _) => destruct (n <=? 0) eqn:Hle; [inv_step|]
  end.
  inv_step. destruct H as (Hl & Hc & Hq). split; [done|split; [done|]].
  unfold queue_positive. simpl. apply Forall_app. split; [done|].
  constructor; [|done]. simpl. apply Z.leb_gt in Hle. lia.
Qed.

Lemma inv_cmd_port msg args : inv quotes_nonneg sound (cmd_port msg args).
Proof.
  unfold cmd_port.
  destruct (match args with [] => _ | _ => _ end) as [full lookup].
  inv_step. destruct H as (Hl & Hc & Hq). split; [done|split; [done|]].
  unfold queue_positive. simpl. apply Forall_app. split; [done|].
  by constructor.
Qed.

Lemma run_sound ev e w : quotes_nonneg e → sound w → sound (run cfg ev e w).
Proof.
  intros He Hw. unfold run. destruct ev as [msg args|msg args|msg args| |]; simpl.
  - by apply inv_cmd_trade.
  - by apply inv_cmd_trade.
  - by apply inv_cmd_port.
  - by apply trader_background_sound.
  - by apply price_updater_sound.
Qed.

Lemma sound_init : sound init.
Proof.
  split; [split|split].
  - simpl. apply map_Forall_singleton. lia.
  - simpl. apply map_Forall_empty.
  - intros s t d str p Hrow. simpl in Hrow. by rewrite lookup_empty in Hrow.
  - constructor.
Qed.

Lemma run_all_sound evs w :
  Forall (λ ee : event * env, quotes_nonneg ee.2) evs → sound w →
  sound (run_all cfg evs w).
Proof.
  intros He. revert w. induction He as [|[ev e] evs He _ IH]; intros w Hw; [done|].
  simpl. apply IH. by apply run_sound.
Qed.

End NonNegative.

(** C6. With a starting balance that is not negative and quotes that are
    not negative, after any sequence of commands, executor iterations and
    updater iterations from the initial store, no balance is negative and
    no holding is negative. *)
Theorem balances_and_holdings_never_negative cfg evs :
  0 ≤ startbalance cfg →
  Forall (λ ee : event * env, quotes_nonneg ee.2) evs →
  (∀ n cents, balances (run_all cfg evs init) !! n = Some cents → 0 ≤ cents)
  ∧ (∀ n s count, holdings (run_all cfg evs init) !! (n, s) = Some count → 0 ≤ count).
Proof.
  intros Hstart Hq.
  destruct (run_all_sound cfg Hstart evs init Hq sound_init) as ((Hb & Hh) & _).
  split.
  - intros n cents H. apply (Hb _ _ H).
  - intros n s count H. apply (Hh _ _ H).
Qed.

Lemma sample_quotes_nonneg t str :
  (∀ p, Py.Decimal str = Some p → (0 <= p)%Q) →
  quotes_nonneg (Sample.env_at t (Body (Some (Sample.quote str)))).
Proof.
  intros Hstr s data str' p Hup Hprice Hdec.
  simpl in Hup. injection Hup as <-.
  vm_compute in Hprice. injection Hprice as <-. by apply Hstr.
Qed.

(** alice buys 10 SYM at $10.00 and sells 4 of them. *)
Lemma balances_and_holdings_never_negative_witness :
  let e := Sample.env_at 1000 (Body (Some (Sample.quote "10.00"))) in
  let evs := [(EBuy Sample.alice ["10"; "sym"], e); (ETrader, e);
              (ESell Sample.alice ["4"; "sym"], e); (ETrader, e)] in
  0 ≤ startbalance Sample.cfg
  ∧ Forall (λ ee : event * env, quotes_nonneg ee.2) evs
  ∧ (∀ n cents, balances (run_all Sample.cfg evs init) !! n = Some cents → 0 ≤ cents)
  ∧ (∀ n s count,
       holdings (run_all Sample.cfg evs init) !! (n, s) = Some count → 0 ≤ count).
Proof.
  cbv zeta.
  assert (0 ≤ startbalance Sample.cfg) as Hstart by (vm_compute; discriminate).
  assert (quotes_nonneg (Sample.env_at 1000 (Body (Some (Sample.quote "10.00"))))) as He.
  { apply sample_quotes_nonneg. intros p Hp. vm_compute in Hp. injection Hp as <-.
    vm_compute. discriminate. }
  assert (Forall (λ ee : event * env, quotes_nonneg ee.2)
            [(EBuy Sample.alice ["10"; "sym"],
              Sample.env_at 1000 (Body (Some (Sample.quote "10.00"))));
             (ETrader, Sample.env_at 1000 (Body (Some (Sample.quote "10.00"))));
             (ESell Sample.alice ["4"; "sym"],
              Sample.env_at 1000 (Body (Some (Sample.quote "10.00"))));
             (ETrader, Sample.env_at 1000 (Body (Some (Sample.quote "10.00"))))]) as Hq.
  { repeat constructor; exact He. }
  split; [exact Hstart|]. split; [exact Hq|].
  exact (balances_and_holdings_never_negative Sample.cfg _ Hstart Hq).
Defined.

(** *** Invariants of every step

    A property of the store that the quote lookup, a trade, the set-up of
    a new account, a new row of the history, a push to and a pop from the
    queue, a message sent and a new value of the timer all keep, is kept
    by every event. *)

Section RunInv.

Variable cfg : config.
Context (P : world → Prop).

Hypothesis P_price : ∀ s T e w, P w → P (get_price s T e w).2.
Hypothesis P_trade : ∀ t e w, P w → P (do_trade cfg t e w).2.
Hypothesis P_new_account : ∀ n w,
  balances w !! n = None → P w → P (with_balances <[n := startbalance cfg * 100]> w).
Hypothesis P_history : ∀ row w, P w → P (with_history (λ l, l ++ [row]) w).
Hypothesis P_push : ∀ q w, P w → P (with_asyncq (λ l, l ++ [q]) w).
Hypothesis P_pop : ∀ rest w, P w → P (with_asyncq (λ _, rest) w).
Hypothesis P_outbox : ∀ m w, P w → P (with_outbox (λ o, o ++ [m]) w).
Hypothesis P_task_time : ∀ t w, P w → P (with_task_time t w).

Lemma inv_get_price_any s T : inv (λ _, True) P (get_price s T).
Proof. intros e w _. apply P_price. Qed.

Lemma inv_do_report_any lookup sender replyto full :
  inv (λ _, True) P (do_report cfg lookup sender replyto full).
Proof.
  unfold do_report.
  inv_step; [apply inv_build_report; apply inv_get_price_any|].
  repeat inv_step; by apply P_outbox.
Qed.

Lemma inv_do_tasks_any : inv (λ _, True) P (do_tasks cfg).
Proof.
  unfold do_tasks, record_nightly_balances, insert_history.
  inv_step; [inv_step|]. inv_step; [inv_step|]. inv_step; [inv_step|].
  inv_step; [inv_step; by apply P_task_time|].
  inv_step; [inv_step|]. inv_step; [inv_step|]. inv_step.
  inv_step; [apply inv_build_report; apply inv_get_price_any|].
  repeat inv_step; by apply P_history.
Qed.

Lemma run_inv ev e w : P w → P (run cfg ev e w).
Proof.
  intros Hw. unfold run.
  assert (∀ b msg args, inv (λ _, True) P (cmd_trade cfg b msg args)) as Hcmd.
  { intros b msg args. unfold cmd_trade, arg, parse_int.
    inv_step.
    { intros e' w' _ Hw'. rewrite check_nick_eq. cbn [snd].
      destruct (balances w' !! prefix_nick msg) eqn:Hb; [done|].
      by apply P_new_account. }
    inv_step; [repeat inv_step|]. inv_step; [repeat inv_step|].
    inv_step; [repeat inv_step|].
    repeat inv_step. by apply P_push. }
  destruct ev as [msg args|msg args|msg args| |]; simpl.
  - by apply Hcmd.
  - by apply Hcmd.
  - unfold cmd_port.
    destruct (match args with [] => _ | _ => _ end) as [full lookup].
    simpl. by apply P_push.
  - apply (inv_try_except (λ _, True) P); [|apply inv_ret|done|done].
    inv_step; [inv_step|]. inv_step; [apply inv_do_tasks_any|].
    inv_step; [inv_step; by apply P_pop|].
    inv_step; [intros e' w' _; apply P_trade|apply inv_do_report_any].
  - apply (inv_try_except (λ _, True) P); [|apply inv_ret|done|done].
    inv_step; [inv_step|]. inv_step; [|inv_step].
    destruct p as [[|c r] ?]; [inv_step|].
    inv_step; [apply inv_get_price_any|inv_step].
Qed.

Lemma run_all_inv evs w : P w → P (run_all cfg evs w).
Proof.
  revert w. induction evs as [|[ev e] evs IH]; intros w Hw; [done|].
  simpl. apply IH. by apply run_inv.
Qed.

End RunInv.

(** ** Further properties of the module *)

Section Atomicity.

Variable cfg : config.

(** The worlds [do_trade] can end in, [w1] being the world after the
    quote lookup. *)
Lemma do_trade_cases t e w :
  let w1 := (get_price (symbol t) (tcachesecs cfg) e w).2 in
  let w' := (do_trade cfg t e w).2 in
  (∃ m, w' = say (replyto t) m w1)
  ∨ w' = w1
  ∨ ∃ p nickbal,
      (get_price (symbol t) (tcachesecs cfg) e w).1 = Ok (VDec p)
      ∧ balances w1 !! nick t = Some nickbal
      ∧ symbol t = Py.upper (symbol t)
      ∧ (buy t = true → price_rounded_of p (amount t) ≤ nickbal)
      ∧ (buy t = false → amount t ≤ default 0 (holdings w1 !! (nick t, symbol t)))
      ∧ let w2 := traded t p nickbal (default 0 (holdings w1 !! (nick t, symbol t))) w1 in
        (balances w2 !! DUSTACCT = None ∧ do_trade cfg t e w = (Raise TypeError, w2))
        ∨ ∃ dustbal, balances w2 !! DUSTACCT = Some dustbal
            ∧ do_trade cfg t e w = (Ok tt, committed t p nickbal dustbal (now e) w2).
Proof.
  cbv zeta. rewrite do_trade_eq.
  destruct (get_price (symbol t) (tcachesecs cfg) e w) as [[[p| |]|x] w1];
    cbn [fst snd]; [|by right; left|by left; eexists..].
  destruct (balances w1 !! nick t) as [nickbal|] eqn:Hbal; [|by right; left].
  case_bool_decide as Hup; [|by right; left]. cbv zeta.
  destruct (buy t && _) eqn:Hbuy; [by left; eexists|].
  destruct (negb (buy t) && _) eqn:Hsell; [by left; eexists|].
  right. right. exists p, nickbal.
  split; [done|]. split; [done|]. split; [done|].
  split; [intros Hside; rewrite Hside in *; simpl in *; lia|].
  split; [intros Hside; rewrite Hside in *; simpl in *; lia|].
  destruct (balances (traded t p nickbal _ w1) !! DUSTACCT) as [dustbal|];
    [right; by eexists|by left].
Qed.

(** X1. While the dust account has its row, a trade is all or nothing:
    either no ledger row changes, or the trade passes its check, returns
    normally, and the balance, the holding, the dust account, the reply
    and the trade record are all written. *)
Theorem do_trade_all_or_nothing t e w :
  is_Some (balances w !! DUSTACCT) →
  ledger (do_trade cfg t e w).2 = ledger w
  ∨ ∃ p nickbal dustbal,
      (get_price (symbol t) (tcachesecs cfg) e w).1 = Ok (VDec p)
      ∧ balances w !! nick t = Some nickbal
      ∧ (buy t = true → price_rounded_of p (amount t) ≤ nickbal)
      ∧ (buy t = false → amount t ≤ default 0 (holdings w !! (nick t, symbol t)))
      ∧ do_trade cfg t e w
        = (Ok tt, committed t p nickbal dustbal (now e)
                    (traded t p nickbal (default 0 (holdings w !! (nick t, symbol t)))
                       (get_price (symbol t) (tcachesecs cfg) e w).2)).
Proof.
  intros [d0 Hdust].
  pose proof (get_price_frame (symbol t) (tcachesecs cfg) e w) as Hf.
  unfold non_cache in Hf.
  destruct (do_trade_cases t e w)
    as [[m Hw']|[Hw'|(p & nickbal & Hp & Hb & Hup & Hbuy & Hsell & Hend)]].
  - left. rewrite Hw'. apply (get_price_ledger (symbol t) (tcachesecs cfg) e w).
  - left. rewrite Hw'. apply get_price_ledger.
  - set (w1 := (get_price (symbol t) (tcachesecs cfg) e w).2) in *.
    assert (balances w1 = balances w ∧ holdings w1 = holdings w) as [Hbw Hhw]
      by by simplify_eq.
    cbv zeta in Hend. destruct Hend as [[Hnone _]|(dustbal & Hd & Heq)].
    + exfalso. simpl in Hnone.
      destruct (decide (nick t = DUSTACCT)) as [Heq|Hne].
      * rewrite Heq, lookup_insert_eq in Hnone. done.
      * rewrite lookup_insert_ne in Hnone by done. congruence.
    + right. exists p, nickbal, dustbal. rewrite <- Hbw, <- Hhw. done.
Qed.

End Atomicity.

Lemma do_trade_all_or_nothing_witness :
  let t := Sample.order true 10 "SYM" in
  let e := Sample.env_at 1000 (Body (Some (Sample.quote "10.00"))) in
  is_Some (balances Sample.w_alice !! DUSTACCT)
  ∧ (ledger (do_trade Sample.cfg t e Sample.w_alice).2 = ledger Sample.w_alice
     ∨ ∃ p nickbal dustbal,
         (get_price (symbol t) (tcachesecs Sample.cfg) e Sample.w_alice).1 = Ok (VDec p)
         ∧ balances Sample.w_alice !! nick t = Some nickbal
         ∧ (buy t = true → price_rounded_of p (amount t) ≤ nickbal)
         ∧ (buy t = false →
            amount t ≤ default 0 (holdings Sample.w_alice !! (nick t, symbol t)))
         ∧ do_trade Sample.cfg t e Sample.w_alice
           = (Ok tt, committed t p nickbal dustbal (now e)
                       (traded t p nickbal
                          (default 0 (holdings Sample.w_alice !! (nick t, symbol t)))
                          (get_price (symbol t) (tcachesecs Sample.cfg) e
                             Sample.w_alice).2))).
Proof.
  cbv zeta.
  assert (is_Some (balances Sample.w_alice !! DUSTACCT)) as Hd
    by (vm_compute; by eexists).
  split; [exact Hd|].
  exact (do_trade_all_or_nothing Sample.cfg (Sample.order true 10 "SYM")
           (Sample.env_at 1000 (Body (Some (Sample.quote "10.00"))))
           Sample.w_alice Hd).
Defined.

Section StoreInvariants.

Variable cfg : config.

Lemma do_trade_prices t e w :
  prices (do_trade cfg t e w).2 = prices (get_price (symbol t) (tcachesecs cfg) e w).2.
Proof.
  destruct (do_trade_cases cfg t e w)
    as [[m ->]|[->|(p & nickbal & _ & _ & _ & _ & _ & Hend)]]; [done..|].
  cbv zeta in Hend. by destruct Hend as [[_ ->]|(dustbal & _ & ->)].
Qed.

Lemma get_price_cache_wf s T e w : cache_wf w → cache_wf (get_price s T e w).2.
Proof.
  intros Hwf. unfold cache_wf.
  destruct (get_price_prices s T e w) as [->|(data & _ & Hne & ->)]; [done|].
  by apply map_Forall_insert_2.
Qed.

(** X2. In every store reached from the initial one, each row of the quote
    cache holds a payload with at least one key: an empty or missing
    upstream result, or one without any known key, is never cached. *)
Theorem cache_holds_no_empty_payload evs : cache_wf (run_all cfg evs init).
Proof.
  apply (run_all_inv cfg cache_wf).
  - intros s T e w. apply get_price_cache_wf.
  - intros t e w Hwf. unfold cache_wf. rewrite do_trade_prices.
    by apply get_price_cache_wf.
  - done.
  - done.
  - done.
  - done.
  - done.
  - done.
  - unfold cache_wf. simpl. apply map_Forall_empty.
Qed.

Lemma get_price_held_cached s T e w : held_cached w → held_cached (get_price s T e w).2.
Proof.
  intros Hhc n s' c Hh.
  pose proof (get_price_frame s T e w) as Hf. unfold non_cache in Hf.
  assert (holdings (get_price s T e w).2 = holdings w) as Hhw by by simplify_eq.
  rewrite Hhw in Hh. specialize (Hhc _ _ _ Hh).
  destruct (get_price_prices s T e w) as [->|(data & _ & _ & ->)]; [done|].
  apply lookup_insert_is_Some. destruct (decide (s = s')); [by left|by right].
Qed.

Lemma do_trade_held_cached t e w : held_cached w → held_cached (do_trade cfg t e w).2.
Proof.
  intros Hhc.
  pose proof (get_price_held_cached (symbol t) (tcachesecs cfg) e w Hhc) as H1.
  destruct (do_trade_cases cfg t e w)
    as [[m ->]|[->|(p & nickbal & Hp & _ & _ & _ & _ & Hend)]]; [done..|].
  destruct (get_price (symbol t) (tcachesecs cfg) e w) as [r w1] eqn:Hgp.
  cbn [fst snd] in *. subst r.
  apply get_price_Ok in Hgp as (tm & d & _ & _ & Hrow & _).
  assert (held_cached (traded t p nickbal
                         (default 0 (holdings w1 !! (nick t, symbol t))) w1)) as H2.
  { intros n s c. simpl. intros Hh.
    destruct (decide ((nick t, symbol t) = (n, s))) as [[= <- <-]|Hne].
    - by eexists.
    - rewrite lookup_insert_ne in Hh by done. by eapply H1. }
  cbv zeta in Hend. by destruct Hend as [[_ ->]|(dustbal & _ & ->)].
Qed.

(** X3. In every store reached from the initial one, every symbol that
    has a holdings row has a row in the quote cache: a trade is committed
    only after its quote has been read from or written to the cache, and
    cache rows are never deleted. *)
Theorem held_symbols_are_cached evs n s c :
  holdings (run_all cfg evs init) !! (n, s) = Some c →
  is_Some (prices (run_all cfg evs init) !! s).
Proof.
  revert n s c. change (held_cached (run_all cfg evs init)).
  apply (run_all_inv cfg held_cached).
  - intros s T e w. apply get_price_held_cached.
  - intros t e w. apply do_trade_held_cached.
  - done.
  - done.
  - done.
  - done.
  - done.
  - done.
  - intros n s c Hh. simpl in Hh. by rewrite lookup_empty in Hh.
Qed.

Lemma extends_refl w : extends w w.
Proof. by repeat split. Qed.

Lemma get_price_extends w0 s T e w : extends w0 w → extends w0 (get_price s T e w).2.
Proof.
  intros (Hb & Hh & Hp & Ht & Hhist).
  pose proof (get_price_frame s T e w) as Hf. unfold non_cache in Hf.
  set (w' := (get_price s T e w).2) in *.
  assert (balances w' = balances w ∧ holdings w' = holdings w ∧ trades w' = trades w
          ∧ balance_history w' = balance_history w) as (Eb & Eh & Et & Ehist)
    by by simplify_eq.
  unfold extends. rewrite Eb, Eh, Et, Ehist.
  repeat split; try done.
  intros s' Hs'. specialize (Hp _ Hs').
  destruct (get_price_prices s T e w) as [Hsame|(data & _ & _ & Hins)];
    fold w' in Hsame || fold w' in Hins.
  - by rewrite Hsame.
  - rewrite Hins. apply lookup_insert_is_Some.
    destruct (decide (s = s')); [by left|by right].
Qed.

Lemma extends_say w0 d m w : extends w0 w → extends w0 (say d m w).
Proof. done. Qed.

Lemma extends_traded w0 t p nickbal count w :
  extends w0 w → extends w0 (traded t p nickbal count w).
Proof.
  intros (Hb & Hh & Hp & Ht & Hhist). repeat split; try done.
  - intros n Hn. simpl. apply lookup_insert_is_Some.
    destruct (decide (nick t = n)); [by left|right]. split; [done|by apply Hb].
  - intros k Hk. simpl. apply lookup_insert_is_Some.
    destruct (decide ((nick t, symbol t) = k)); [by left|right].
    split; [done|by apply Hh].
Qed.

Lemma extends_committed w0 t p nickbal dustbal tm w :
  extends w0 w → extends w0 (committed t p nickbal dustbal tm w).
Proof.
  intros (Hb & Hh & Hp & Ht & Hhist). repeat split; try done.
  - intros n Hn. simpl. apply lookup_insert_is_Some.
    destruct (decide (DUSTACCT = n)); [by left|right]. split; [done|by apply Hb].
  - simpl. by apply prefix_app_r.
Qed.

(** X4. No event deletes anything: after any sequence of events every
    balance row, holdings row and cache row of the store is still there,
    and the trade log and the balance history have only grown at their
    end. *)
Theorem store_only_grows evs w : extends w (run_all cfg evs w).
Proof.
  apply (run_all_inv cfg (extends w)).
  - intros s T e w'. apply get_price_extends.
  - intros t e w' Hext.
    pose proof (get_price_extends w (symbol t) (tcachesecs cfg) e w' Hext) as H1.
    destruct (do_trade_cases cfg t e w')
      as [[m ->]|[->|(p & nickbal & _ & _ & _ & _ & _ & Hend)]]; [done..|].
    cbv zeta in Hend. destruct Hend as [[_ ->]|(dustbal & _ & ->)]; cbn [snd].
    + by apply extends_traded.
    + by apply extends_committed, extends_traded.
  - intros n w' _ (Hb & Hh & Hp & Ht & Hhist). repeat split; try done.
    intros n' Hn'. simpl. apply lookup_insert_is_Some.
    destruct (decide (n = n')); [by left|right]. split; [done|by apply Hb].
  - intros row w' (Hb & Hh & Hp & Ht & Hhist). repeat split; try done.
    simpl. by apply prefix_app_r.
  - done.
  - done.
  - done.
  - done.
  - apply extends_refl.
Qed.

End StoreInvariants.

Section LogConsistency.

Variable cfg : config.

Lemma trades_of_snoc n s log row :
  trades_of n s (log ++ [row])
  = trades_of n s log ++ (if decide (tr_nick row = n ∧ tr_symbol row = s) then [row] else []).
Proof.
  unfold trades_of. by rewrite filter_app.
Qed.

Lemma log_consistent_ledger w w' : ledger w' = ledger w → log_consistent w → log_consistent w'.
Proof.
  unfold ledger, log_consistent. intros [= -> -> ->]. done.
Qed.

Lemma do_trade_log_consistent t e w :
  log_consistent w → log_consistent (do_trade cfg t e w).2.
Proof.
  intros Hc.
  pose proof (get_price_ledger (symbol t) (tcachesecs cfg) e w) as Hl.
  pose proof (log_consistent_ledger _ _ Hl Hc) as Hc1.
  destruct (do_trade_cases cfg t e w)
    as [[m ->]|[->|(p & nickbal & _ & Hb & _ & _ & _ & Hend)]]; [done..|].
  set (w1 := (get_price (symbol t) (tcachesecs cfg) e w).2) in *.
  destruct Hc1 as [[d0 Hdust] Hsum].
  cbv zeta in Hend. destruct Hend as [[Hnone _]|(dustbal & Hd & ->)].
  - exfalso. simpl in Hnone.
    destruct (decide (nick t = DUSTACCT)) as [Heq|Hne].
    + rewrite Heq, lookup_insert_eq in Hnone. done.
    + rewrite lookup_insert_ne in Hnone by done. congruence.
  - cbn [snd]. split.
    + simpl. apply lookup_insert_is_Some. by left.
    + intros n s. simpl. rewrite trades_of_snoc. simpl.
      destruct (decide ((nick t, symbol t) = (n, s))) as [[= <- <-]|Hne].
      * rewrite lookup_insert_eq. rewrite decide_True by done.
        rewrite count_sum_snoc. rewrite <- Hsum. unfold sign_of. simpl.
        destruct (buy t); simpl; lia.
      * rewrite lookup_insert_ne by done.
        rewrite decide_False by (intros [? ?]; congruence).
        rewrite app_nil_r. apply Hsum.
Qed.

(** X5. In every store reached from the initial one, the dust account has
    its row, and the count of every holding is the number of shares
    bought minus the number sold in the account's rows of the symbol in
    the trade log (zero where there is no holdings row). *)
Theorem holdings_match_trade_log evs :
  is_Some (balances (run_all cfg evs init) !! DUSTACCT)
  ∧ ∀ n s, default 0 (holdings (run_all cfg evs init) !! (n, s))
           = count_sum (trades_of n s (trades (run_all cfg evs init))).
Proof.
  change (log_consistent (run_all cfg evs init)).
  apply (run_all_inv cfg log_consistent).
  - intros s T e w. apply log_consistent_ledger, get_price_ledger.
  - intros t e w. apply do_trade_log_consistent.
  - intros n w Hn [Hd Hsum]. split; [|done].
    simpl. apply lookup_insert_is_Some.
    destruct (decide (n = DUSTACCT)); [by left|by right].
  - done.
  - done.
  - done.
  - done.
  - done.
  - split; [by eexists|]. intros n s. simpl. by rewrite lookup_empty.
Qed.

End LogConsistency.

Section Housekeeping.

Variable cfg : config.

Lemma inv_record_nightly_balances_field {A} (f : world → A) c :
  (∀ s T e w, f (get_price s T e w).2 = f w) →
  (∀ row w, f (with_history (λ l, l ++ [row]) w) = f w) →
  inv (λ _, True) (λ w, f w = c) (record_nightly_balances cfg).
Proof.
  intros Hprice Hhist.
  unfold record_nightly_balances, insert_history.
  inv_step; [inv_step|]. inv_step; [inv_step|]. inv_step.
  inv_step.
  { apply inv_build_report. intros s T e w _ <-. apply Hprice. }
  repeat inv_step. by rewrite Hhist.
Qed.

Lemma record_nightly_balances_task_time e w :
  task_time (record_nightly_balances cfg e w).2 = task_time w.
Proof.
  apply (inv_record_nightly_balances_field task_time (task_time w)); [|done..].
  intros s T e' w'. pose proof (get_price_frame s T e' w') as Hf.
  unfold non_cache in Hf. by simplify_eq.
Qed.

(** X6. [do_tasks] runs the nightly sweep at most once a minute: called
    less than 60 seconds after the time it last recorded, it changes
    nothing; otherwise it records the time before it starts the sweep, so
    that a second call within the next 60 seconds changes nothing, even
    when the sweep ended by an exception. *)
Theorem do_tasks_once_a_minute e1 e2 w :
  (now e1 - 60 < task_time w → do_tasks cfg e1 w = (Ok tt, w))
  ∧ (task_time w ≤ now e1 - 60 →
     task_time (do_tasks cfg e1 w).2 = now e1
     ∧ (now e2 - 60 < now e1 →
        do_tasks cfg e2 (do_tasks cfg e1 w).2 = (Ok tt, (do_tasks cfg e1 w).2))).
Proof.
  assert (∀ e w0, now e - 60 < task_time w0 → do_tasks cfg e w0 = (Ok tt, w0)) as Hskip.
  { intros e w0 Hlt. unfold do_tasks, bind, ask, get, ret.
    by apply Z.ltb_lt in Hlt as ->. }
  split; [apply Hskip|].
  intros Hdue.
  assert (task_time (do_tasks cfg e1 w).2 = now e1) as Htime.
  { unfold do_tasks, bind, ask, get, modify.
    apply Z.ltb_ge in Hdue as ->.
    pose proof (record_nightly_balances_task_time e1 (with_task_time (now e1) w)) as Ht.
    by destruct (record_nightly_balances cfg e1 (with_task_time (now e1) w)) as [[[]|x] w']. }
  split; [done|]. intros Hsoon. apply Hskip. by rewrite Htime.
Qed.

(** X7. An iteration of the executor never raises, takes exactly the first
    request off a queue that is not empty, and leaves an empty queue
    empty. *)
Theorem executor_takes_one_request e w :
  (trader_background cfg e w).1 = Ok tt
  ∧ asyncq (trader_background cfg e w).2 = tail (asyncq w).
Proof.
  split.
  { unfold trader_background, try_except.
    by match goal with |- (match ?m with _ => _ end).1 = _ => destruct m as [[[]|?] ?] end. }
  destruct (asyncq w) as [|[t|lookup sender replyto full] rest] eqn:Hq; simpl.
  - unfold trader_background, try_except, bind, get. rewrite Hq.
    assert (asyncq (do_tasks cfg e w).2 = asyncq w) as Ha.
    { unfold do_tasks, bind, ask, get, modify, ret.
      destruct (now e - 60 <? task_time w); [done|].
      pose proof (inv_record_nightly_balances_field asyncq
                    (asyncq (with_task_time (now e) w))) as Hinv.
      specialize (Hinv ltac:(intros s T e' w'; pose proof (get_price_frame s T e' w') as Hf;
                             unfold non_cache in Hf; by simplify_eq)
                       ltac:(done) e (with_task_time (now e) w) I eq_refl).
      by destruct (record_nightly_balances cfg e (with_task_time (now e) w)) as [[[]|x] w']. }
    rewrite <- Hq, <- Ha. by destruct (do_tasks cfg e w) as [[[]|x] w'].
  - rewrite (trader_background_trade _ _ _ _ _ Hq). cbn [snd].
    set (w0 := with_asyncq (λ _, rest) w).
    pose proof (get_price_frame (symbol t) (tcachesecs cfg) e w0) as Hf.
    unfold non_cache in Hf.
    assert (asyncq (get_price (symbol t) (tcachesecs cfg) e w0).2 = rest) as Ha
      by by simplify_eq.
    destruct (do_trade_cases cfg t e w0)
      as [[m ->]|[->|(p & nickbal & _ & _ & _ & _ & _ & Hend)]]; [done..|].
    cbv zeta in Hend. by destruct Hend as [[_ ->]|(dustbal & _ & ->)].
  - rewrite (trader_background_report _ _ _ _ _ _ _ _ Hq). cbn [snd].
    apply (inv_do_report_any cfg (λ w', asyncq w' = rest)); try done.
    intros s T e' w' <-. pose proof (get_price_frame s T e' w') as Hf.
    unfold non_cache in Hf. by simplify_eq.
Qed.

End Housekeeping.

Section Sweep.

Lemma get_price_fetchlog s T e w :
  fetchlog (get_price s T e w).2 = fetchlog w
  ∨ fetchlog (get_price s T e w).2 = fetchlog w ++ [s].
Proof.
  unfold get_price, get_priceinfo_cached, _get_cache_priceinfo, fetch_priceinfo,
    _set_cache_priceinfo. unfold_M.
  repeat case_match; simplify_eq/=; try (by left); try (by right).
  all: unfold truthy in *; repeat case_match; simplify_eq/=; (by left) || (by right).
Qed.

Lemma held_symbols_spec s h :
  s ∈ held_symbols h ↔ ∃ n c, h !! (n, s) = Some c ∧ 0 < c.
Proof.
  unfold held_symbols. rewrite list_elem_of_fmap. split.
  - intros ([[n s'] c] & -> & Hin). apply list_elem_of_filter in Hin as [Hpos Hin].
    apply elem_of_map_to_list in Hin. by exists n, c.
  - intros (n & c & Hh & Hpos). exists (n, s, c). split; [done|].
    apply list_elem_of_filter. split; [done|]. by apply elem_of_map_to_list.
Qed.

Lemma head_sort_by_min {A} (le : A → A → bool) l x :
  (∀ a b, le a b = false → le b a = true) →
  (∀ a b c, le a b = true → le b c = true → le a c = true) →
  head (sort_by le l) = Some x →
  x ∈ l ∧ ∀ y, y ∈ l → le x y = true.
Proof.
  intros Htot Htrans Hhead.
  pose proof (sort_by_sorted le Htot Htrans l) as Hs.
  pose proof (sort_by_perm le l) as Hp.
  destruct (sort_by le l) as [|x' l'] eqn:Hsl; simplify_eq/=.
  split; [rewrite <- Hp; by left|].
  intros y Hy. rewrite <- Hp in Hy. apply elem_of_cons in Hy as [->|Hy].
  - destruct (le x x) eqn:Hxx; [done|]. pose proof (Htot _ _ Hxx). congruence.
  - inversion Hs as [|? ? _ Hall]; simplify_eq.
    rewrite Forall_forall in Hall. by apply Hall.
Qed.

(** X8. An iteration of the quote updater never raises and writes nothing
    but the quote cache; it makes at most one upstream request, and only
    for a symbol that some account holds in a positive number, that has a
    cache row, and whose cache row is not newer than that of any other
    such symbol. *)
Theorem price_updater_refreshes_only_held e w :
  (price_updater e w).1 = Ok tt
  ∧ non_cache (price_updater e w).2 = non_cache w
  ∧ (fetchlog (price_updater e w).2 = fetchlog w
     ∨ ∃ s t d,
         fetchlog (price_updater e w).2 = fetchlog w ++ [s]
         ∧ prices w !! s = Some (t, d)
         ∧ (∃ n c, holdings w !! (n, s) = Some c ∧ 0 < c)
         ∧ ∀ s' t' d' n' c',
             prices w !! s' = Some (t', d') → holdings w !! (n', s') = Some c' →
             0 < c' → t ≤ t').
Proof.
  unfold price_updater, try_except. unfold bind at 1 3 5 7. unfold get.
  destruct (select_oldest_held w) as [[[|ch r] [t d]]|] eqn:Hsel;
    [by repeat split; try left|..|by repeat split; try left].
  pose proof (get_price_frame (String ch r) 0 e w) as Hf.
  pose proof (get_price_fetchlog (String ch r) 0 e w) as Hlog.
  unfold bind, ret.
  destruct (get_price (String ch r) 0 e w) as [[v|x] w']; cbn [fst snd] in *.
  all: split; [done|]; split; [done|].
  all: destruct Hlog as [Hlog|Hlog]; [by left|right].
  all: exists (String ch r), t, d; split; [done|].
  all: unfold select_oldest_held in Hsel.
  all: apply head_sort_by_min in Hsel as [Hin Hmin];
         [|unfold time_asc; intros; lia..].
  all: apply list_elem_of_filter in Hin as [Hheld Hin]; simpl in Hheld.
  all: apply elem_of_map_to_list in Hin.
  all: split; [done|]; split; [by apply held_symbols_spec|].
  all: intros s' t' d' n' c' Hrow Hh Hpos.
  all: specialize (Hmin (s', (t', d'))); unfold time_asc in Hmin; simpl in Hmin.
  all: apply Z.leb_le, Hmin, list_elem_of_filter.
  all: split; [apply held_symbols_spec; by exists n', c'|by apply elem_of_map_to_list].
Qed.

End Sweep.

Section Commands.

Variable cfg : config.

Lemma upper_ascii_symbol_char c : symbol_char c = true → Py.upper_ascii c = c.
Proof.
  destruct c as [[] [] [] [] [] [] [] []]; vm_compute; intros H; (done || discriminate).
Qed.

Lemma upper_symbol_chars s : symbol_chars s = true → Py.upper s = s.
Proof.
  induction s as [|c r IH]; [done|]. simpl.
  destruct (Ascii.eqb c "010") eqn:Hc.
  - apply Ascii.eqb_eq in Hc as ->. destruct r as [|c' r'].
    + done.
    + intros H. apply andb_true_iff in H as [H _]. discriminate.
  - assert (symbol_char c && symbol_chars r = true → Py.upper (String c r) = String c r)
      as Hstep.
    { intros H. apply andb_true_iff in H as [H1 H2]. simpl.
      by rewrite upper_ascii_symbol_char, IH. }
    destruct c as [[] [] [] [] [] [] [] []]; try exact Hstep; discriminate.
Qed.

Lemma length_upper s : String.length (Py.upper s) = String.length s.
Proof. induction s as [|c r IH]; simpl; congruence. Qed.

(** What [checksym] returns is in upper case, not empty and short. *)
Lemma checksym_Some s sym :
  checksym s = Some sym →
  sym = Py.upper s ∧ Py.upper sym = sym ∧ sym ≠ "" ∧ (String.length sym ≤ 12)%nat.
Proof.
  unfold checksym.
  destruct (12 <? String.length s)%nat eqn:Hlen; [done|].
  destruct (RE_SYMBOL_match (Py.upper s)) eqn:Hre; [|done].
  intros [= <-]. split; [done|]. split; [|split].
  - unfold RE_SYMBOL_match in Hre. destruct (Py.upper s) as [|c r]; [done|].
    apply andb_true_iff in Hre as [H1 H2]. simpl.
    by rewrite upper_ascii_symbol_char, upper_symbol_chars.
  - unfold RE_SYMBOL_match in Hre. by destruct (Py.upper s).
  - apply Nat.ltb_ge in Hlen. pose proof (length_upper s). lia.
Qed.

(** X9. What [checksym] accepts of an ASCII argument: the upper-casing
    of the argument, of at most 12 characters, not empty, unchanged by
    another upper-casing (so that [get_holding]'s assertion holds for it),
    and accepted as it is by [checksym] again. *)
Theorem checksym_accepts_upper_case s sym :
  Py.is_ascii s = true →
  checksym s = Some sym →
  sym = Py.upper s
  ∧ Py.upper sym = sym
  ∧ sym ≠ ""
  ∧ (String.length sym ≤ 12)%nat
  ∧ checksym sym = Some sym.
Proof.
  intros _ Hs.
  destruct (checksym_Some s sym Hs) as (Heq & Hup & Hne & Hlen).
  split; [done|]. split; [done|]. split; [done|]. split; [done|].
  unfold checksym in *. rewrite Hup.
  destruct (12 <? String.length sym)%nat eqn:Hlong;
    [apply Nat.ltb_lt in Hlong; lia|].
  destruct (12 <? String.length s)%nat; [done|].
  destruct (RE_SYMBOL_match (Py.upper s)) eqn:Hre; [|done].
  injection Hs as Hs. rewrite <- Hs. by rewrite Hre.
Qed.

(** X10. A buy or sell command whose symbol argument is ASCII sends
    nothing and writes no holding, no trade record, no quote and no
    history row; it leaves every existing balance as it is and gives the
    sender the starting balance if the sender had no account; and it
    queues at most one trade, which is for the sender, on the side of the
    command, of a positive amount and of an upper-case symbol of 1 to 12
    characters, to be answered on the channel the command came from or to
    the sender. *)
Theorem cmd_trade_only_queues is_buy msg args e w :
  (∀ a1, args !! 1%nat = Some a1 → Py.is_ascii a1 = true) →
  let w' := (cmd_trade cfg is_buy msg args e w).2 in
  (outbox w' = outbox w ∧ holdings w' = holdings w ∧ trades w' = trades w
   ∧ prices w' = prices w ∧ balance_history w' = balance_history w
   ∧ fetchlog w' = fetchlog w)
  ∧ (∀ n c, balances w !! n = Some c → balances w' !! n = Some c)
  ∧ balances w' !! prefix_nick msg
    = Some (default (startbalance cfg * 100) (balances w !! prefix_nick msg))
  ∧ (asyncq w' = asyncq w
     ∨ ∃ t, asyncq w' = asyncq w ++ [QTrade t]
         ∧ nick t = prefix_nick msg ∧ buy t = is_buy ∧ 0 < amount t
         ∧ symbol t = Py.upper (symbol t) ∧ symbol t ≠ ""
         ∧ (String.length (symbol t) ≤ 12)%nat
         ∧ (replyto t = args0 msg ∨ replyto t = prefix_nick msg)).
Proof.
  intros _. cbv zeta.
  remember (cmd_trade cfg is_buy msg args e w) as rw eqn:Hrw.
  unfold cmd_trade in Hrw. unfold bind at 1 in Hrw. rewrite check_nick_eq in Hrw.
  set (w0 := match balances w !! prefix_nick msg with
             | Some _ => w
             | None => with_balances <[prefix_nick msg := startbalance cfg * 100]> w
             end).
  assert (outbox w0 = outbox w ∧ holdings w0 = holdings w ∧ trades w0 = trades w
          ∧ prices w0 = prices w ∧ balance_history w0 = balance_history w
          ∧ fetchlog w0 = fetchlog w ∧ asyncq w0 = asyncq w) as (Ho & Hh & Ht & Hp & Hi & Hf & Ha).
  { unfold w0. by destruct (balances w !! prefix_nick msg). }
  assert (∀ n c, balances w !! n = Some c → balances w0 !! n = Some c) as Hkeep.
  { unfold w0. intros n c Hn. destruct (balances w !! prefix_nick msg) eqn:Hb; [done|].
    simpl. rewrite lookup_insert_ne; [done|]. congruence. }
  assert (balances w0 !! prefix_nick msg
          = Some (default (startbalance cfg * 100) (balances w !! prefix_nick msg))) as Hmine.
  { unfold w0. destruct (balances w !! prefix_nick msg) eqn:Hb; simpl; [done|].
    by rewrite lookup_insert_eq. }
  unfold arg, parse_int, bind, ret, raise, modify in Hrw. fold w0 in Hrw.
  assert (∀ r : res unit,
            (outbox (r, w0).2 = outbox w ∧ holdings (r, w0).2 = holdings w
             ∧ trades (r, w0).2 = trades w ∧ prices (r, w0).2 = prices w
             ∧ balance_history (r, w0).2 = balance_history w
             ∧ fetchlog (r, w0).2 = fetchlog w)
            ∧ (∀ n c, balances w !! n = Some c → balances (r, w0).2 !! n = Some c)
            ∧ balances (r, w0).2 !! prefix_nick msg
              = Some (default (startbalance cfg * 100) (balances w !! prefix_nick msg))
            ∧ (asyncq (r, w0).2 = asyncq w
               ∨ ∃ t, asyncq (r, w0).2 = asyncq w ++ [QTrade t]
                   ∧ nick t = prefix_nick msg ∧ buy t = is_buy ∧ 0 < amount t
                   ∧ symbol t = Py.upper (symbol t) ∧ symbol t ≠ ""
                   ∧ (String.length (symbol t) ≤ 12)%nat
                   ∧ (replyto t = args0 msg ∨ replyto t = prefix_nick msg))) as Hdrop.
  { intros r. cbn [snd]. split; [done|]. split; [exact Hkeep|]. split; [exact Hmine|].
    by left. }
  destruct (args !! 0%nat) as [a0|]; [|subst rw; apply Hdrop].
  destruct (Py.int_of_str a0) as [n|]; [|subst rw; apply Hdrop].
  destruct (args !! 1%nat) as [a1|]; [|subst rw; apply Hdrop].
  destruct (checksym a1) as [[|c r]|] eqn:Hsym;
    [subst rw; apply Hdrop| |subst rw; apply Hdrop].
  destruct (n <=? 0) eqn:Hn; [subst rw; apply Hdrop|].
  apply Z.leb_gt in Hn.
  apply checksym_Some in Hsym as (_ & Hup & Hne & Hlen).
  subst rw. cbn [snd]. split; [done|]. split; [exact Hkeep|]. split; [exact Hmine|].
  right. eexists. cbn [asyncq with_asyncq]. rewrite Ha. split; [done|].
  cbn [nick buy symbol amount replyto].
  split; [done|]. split; [done|]. split; [lia|].
  split; [symmetry; exact Hup|]. split; [done|]. split; [exact Hlen|].
  destruct (Py.startswith "#" (args0 msg)); [by left|by right].
Qed.

End Commands.

Section Reports.

Variable cfg : config.

Lemma select_holdings_nil n h :
  (∀ s c, h !! (n, s) = Some c → c ≤ 0) → select_holdings n h = [].
Proof.
  intros Hnone. unfold select_holdings.
  rewrite filter_none; [done|].
  apply Forall_forall. intros [[n' s] c] Hin [Hpos Hn]. simpl in *. subst n'.
  apply elem_of_map_to_list in Hin. specialize (Hnone _ _ Hin). lia.
Qed.

(** X11. The report of an account that holds no share: a short report is
    one message, to the reply destination, giving cash and a stock value
    of zero; a full report sends that message to the requester and then
    raises [IndexError], [tabulate] reading the first row of an empty
    table. *)
Theorem report_without_holdings lookup sender replyto e w cents :
  balances w !! lookup = Some cents →
  (∀ s c, holdings w !! (lookup, s) = Some c → c ≤ 0) →
  ∃ gain pct,
    let m := TReport sender lookup (inject_Z cents / 100) 0
               (inject_Z cents / 100 + 0) gain pct in
    do_report cfg lookup sender replyto false e w = (Ok tt, say replyto m w)
    ∧ do_report cfg lookup sender replyto true e w = (Raise IndexError, say sender m w).
Proof.
  intros Hbal Hnone.
  assert (∃ gain pct,
            build_report cfg lookup e w
            = (Ok {| r_cash := inject_Z cents / 100; r_holdings := [];
                     r_holding_value := 0; r_24hgain := gain; r_24hpct := pct |}, w))
    as (gain & pct & Hbuild).
  { unfold build_report, get_bal, get_latest_hist_bal, bind, get, ret.
    rewrite Hbal. rewrite (select_holdings_nil _ _ Hnone). simpl.
    destruct (head _); by eexists _, _. }
  exists gain, pct. cbv zeta.
  unfold do_report, bind. rewrite Hbuild. done.
Qed.

End Reports.

Lemma report_without_holdings_witness :
  let e := Sample.env_at 1000 HttpError in
  balances Sample.w_alice !! "alice" = Some 10000
  ∧ ∃ gain pct,
      do_report Sample.cfg "alice" "alice" "#chan" true e Sample.w_alice
      = (Raise IndexError,
         say "alice" (TReport "alice" "alice" (inject_Z 10000 / 100) 0
                        (inject_Z 10000 / 100 + 0) gain pct) Sample.w_alice).
Proof.
  cbv zeta.
  assert (balances Sample.w_alice !! "alice" = Some 10000) as Hb
    by (vm_compute; reflexivity).
  split; [exact Hb|].
  destruct (report_without_holdings Sample.cfg "alice" "alice" "#chan"
              (Sample.env_at 1000 HttpError) Sample.w_alice 10000 Hb)
    as (gain & pct & _ & Hfull).
  - intros s c Hh. vm_compute in Hh. discriminate.
  - exists gain, pct. exact Hfull.
Defined.

Section Normalisation.

Lemma reformat_snoc data k v :
  reformat (data ++ [(k, v)])
  = if bool_decide (Py.drop 4 k ∈ keys) then <[Py.drop 4 k := v]> (reformat data)
    else reformat data.
Proof. unfold reformat. by rewrite foldl_app. Qed.

(** X12. The payload [fetch_priceinfo] makes of an upstream object has no
    key outside the ten known names, and each of its values is the value
    of an upstream item whose key, less its first four characters, is the
    key of the value. *)
Theorem reformat_keeps_known_keys data k v :
  reformat data !! k = Some v →
  k ∈ keys ∧ ∃ k0, (k0, v) ∈ data ∧ Py.drop 4 k0 = k.
Proof.
  induction data as [|[k0 v0] data IH] using rev_ind.
  - rewrite reformat_nil, lookup_empty. done.
  - rewrite reformat_snoc. case_bool_decide as Hk.
    + destruct (decide (Py.drop 4 k0 = k)) as [<-|Hne].
      * rewrite lookup_insert_eq. intros [= <-]. split; [done|].
        exists k0. split; [|done]. apply elem_of_app. right. by left.
      * rewrite lookup_insert_ne by done. intros H.
        destruct (IH H) as (Hin & k1 & Hk1 & Hd). split; [done|].
        exists k1. split; [|done]. apply elem_of_app. by left.
    + intros H. destruct (IH H) as (Hin & k1 & Hk1 & Hd). split; [done|].
      exists k1. split; [|done]. apply elem_of_app. by left.
Qed.

(** X13. When two upstream items have the same key less its first four
    characters, the later one wins; an item with a known key that no later
    item overrides is in the payload. *)
Theorem reformat_last_wins data1 data2 k0 v :
  Py.drop 4 k0 ∈ keys →
  Forall (λ kv, Py.drop 4 kv.1 ≠ Py.drop 4 k0) data2 →
  reformat (data1 ++ (k0, v) :: data2) !! Py.drop 4 k0 = Some v.
Proof.
  intros Hk. induction data2 as [|[k1 v1] data2 IH] using rev_ind; intros Hlater.
  - rewrite reformat_snoc. rewrite bool_decide_eq_true_2 by done.
    apply lookup_insert_eq.
  - apply Forall_app in Hlater as [Hl1 Hl2]. apply Forall_inv in Hl2. cbn [fst] in Hl2.
    rewrite app_comm_cons, app_assoc, reformat_snoc.
    case_bool_decide; [rewrite lookup_insert_ne by done|]; by apply IH.
Qed.

End Normalisation.

Lemma reformat_last_wins_witness :
  Py.drop 4 "05. price" ∈ keys
  ∧ reformat ([("01. symbol", "SYM"); ("05. price", "1.00")]
              ++ ("05. price", "2.00") :: [("06. volume", "7")])
    !! Py.drop 4 "05. price" = Some "2.00".
Proof.
  assert (Py.drop 4 "05. price" ∈ keys) as Hk.
  { apply (bool_decide_unpack _). vm_compute. reflexivity. }
  split; [exact Hk|].
  apply (reformat_last_wins _ _ "05. price" "2.00" Hk).
  repeat constructor. simpl. discriminate.
Defined.

Lemma reformat_keeps_known_keys_witness :
  reformat (Sample.quote "10.00") !! "price" = Some "10.00"
  ∧ "price" ∈ keys
  ∧ ∃ k0, (k0, "10.00") ∈ Sample.quote "10.00" ∧ Py.drop 4 k0 = "price".
Proof.
  assert (reformat (Sample.quote "10.00") !! "price" = Some "10.00") as H
    by (vm_compute; reflexivity).
  split; [exact H|].
  exact (reformat_keeps_known_keys (Sample.quote "10.00") "price" "10.00" H).
Defined.

Section RoundTrip.

Variable cfg : config.

(** A trade that passes its checks, spelled out. *)
Lemma do_trade_commits t e w p w1 nickbal dustbal :
  get_price (symbol t) (tcachesecs cfg) e w = (Ok (VDec p), w1) →
  balances w !! nick t = Some nickbal →
  balances w !! DUSTACCT = Some dustbal →
  nick t ≠ DUSTACCT →
  symbol t = Py.upper (symbol t) →
  (buy t = true → price_rounded_of p (amount t) ≤ nickbal) →
  (buy t = false → amount t ≤ default 0 (holdings w !! (nick t, symbol t))) →
  do_trade cfg t e w
  = (Ok tt, committed t p nickbal dustbal (now e)
              (traded t p nickbal (default 0 (holdings w !! (nick t, symbol t))) w1)).
Proof.
  intros Hp Hb Hd Hne Hup Hbuy Hsell.
  pose proof (get_price_frame (symbol t) (tcachesecs cfg) e w) as Hf.
  rewrite do_trade_eq, Hp. rewrite Hp in Hf. cbn [snd] in Hf.
  unfold non_cache in Hf.
  assert (balances w1 = balances w ∧ holdings w1 = holdings w) as [-> ->]
    by by simplify_eq.
  rewrite Hb. rewrite bool_decide_eq_true_2 by done. cbv zeta.
  assert (buy t && (nickbal <? price_rounded_of p (amount t)) = false) as ->.
  { destruct (buy t); [|done]. simpl. apply Z.ltb_ge. by apply Hbuy. }
  assert (negb (buy t) && (default 0 (holdings w !! (nick t, symbol t)) <? amount t)
          = false) as ->.
  { destruct (buy t); [done|]. simpl. apply Z.ltb_ge. by apply Hsell. }
  assert (balances (traded t p nickbal (default 0 (holdings w !! (nick t, symbol t))) w1)
            !! DUSTACCT = Some dustbal) as ->; [|done].
  simpl. rewrite lookup_insert_ne by done.
  assert (balances w1 = balances w) as -> by by simplify_eq. done.
Qed.

(** X14. A buy followed by a sell of the same number of shares of the same
    symbol, both quoted at the same price: the consideration is rounded up
    to the cent on both sides, so the account's cash and its holding are
    as before the buy, the dust account has been credited twice, and the
    trade log has the two records, of the same price. *)
Theorem buy_then_sell_restores_cash n s k rt e1 e2 w p nickbal dustbal :
  let tb := {| nick := n; buy := true; symbol := s; amount := k; replyto := rt |} in
  let ts := {| nick := n; buy := false; symbol := s; amount := k; replyto := rt |} in
  let w1 := (do_trade cfg tb e1 w).2 in
  let w2 := (do_trade cfg ts e2 w1).2 in
  n ≠ DUSTACCT → s = Py.upper s →
  balances w !! n = Some nickbal → balances w !! DUSTACCT = Some dustbal →
  0 ≤ default 0 (holdings w !! (n, s)) →
  (get_price s (tcachesecs cfg) e1 w).1 = Ok (VDec p) →
  (get_price s (tcachesecs cfg) e2 w1).1 = Ok (VDec p) →
  price_rounded_of p k ≤ nickbal →
  balances w2 !! n = Some nickbal
  ∧ holdings w2 !! (n, s) = Some (default 0 (holdings w !! (n, s)))
  ∧ balances w2 !! DUSTACCT = Some (dustbal + 2 * dust_credit p k)
  ∧ trades w2
    = trades w ++
      [{| tr_nick := n; tr_time := now e1; tr_type := "buy"; tr_symbol := s;
          tr_count := k; tr_price := price_rounded_of p k |};
       {| tr_nick := n; tr_time := now e2; tr_type := "sell"; tr_symbol := s;
          tr_count := k; tr_price := price_rounded_of p k |}].
Proof.
  cbv zeta. intros Hne Hup Hb Hd Hcount Hp1 Hp2 Hafford.
  set (tb := {| nick := n; buy := true; symbol := s; amount := k; replyto := rt |}) in *.
  set (ts := {| nick := n; buy := false; symbol := s; amount := k; replyto := rt |}) in *.
  set (count := default 0 (holdings w !! (n, s))) in *.
  destruct (get_price s (tcachesecs cfg) e1 w) as [r1 wa] eqn:Hg1.
  cbn [fst] in Hp1. subst r1.
  pose proof (get_price_frame s (tcachesecs cfg) e1 w) as Hfa.
  rewrite Hg1 in Hfa. cbn [snd] in Hfa. unfold non_cache in Hfa.
  assert (trades wa = trades w) as Hta by by simplify_eq.
  assert (do_trade cfg tb e1 w
          = (Ok tt, committed tb p nickbal dustbal (now e1) (traded tb p nickbal count wa)))
    as Hbuy.
  { apply do_trade_commits; done. }
  rewrite Hbuy in *. cbn [snd] in *.
  set (w1 := committed tb p nickbal dustbal (now e1) (traded tb p nickbal count wa)) in *.
  assert (balances w1 !! n = Some (nickbal - price_rounded_of p k)) as Hb1.
  { simpl. rewrite lookup_insert_ne by done. by rewrite lookup_insert_eq. }
  assert (balances w1 !! DUSTACCT = Some (dustbal + dust_credit p k)) as Hd1.
  { simpl. by rewrite lookup_insert_eq. }
  assert (holdings w1 !! (n, s) = Some (count + k)) as Hh1.
  { simpl. by rewrite lookup_insert_eq. }
  destruct (get_price s (tcachesecs cfg) e2 w1) as [r2 wb] eqn:Hg2.
  cbn [fst] in Hp2. subst r2.
  pose proof (get_price_frame s (tcachesecs cfg) e2 w1) as Hfb.
  rewrite Hg2 in Hfb. cbn [snd] in Hfb. unfold non_cache in Hfb.
  assert (balances wb = balances w1 ∧ holdings wb = holdings w1 ∧ trades wb = trades w1)
    as (Hbb & Hhb & Htb) by by simplify_eq.
  assert (do_trade cfg ts e2 w1
          = (Ok tt, committed ts p (nickbal - price_rounded_of p k)
                      (dustbal + dust_credit p k) (now e2)
                      (traded ts p (nickbal - price_rounded_of p k)
                         (default 0 (holdings w1 !! (nick ts, symbol ts))) wb)))
    as Hsell.
  { apply do_trade_commits; try done.
    intros _. cbn [symbol nick amount ts]. rewrite Hh1. simpl. lia. }
  rewrite Hsell. cbn [snd]. cbn [symbol nick ts]. rewrite Hh1.
  split; [|split; [|split]].
  - simpl. rewrite lookup_insert_ne by done. rewrite lookup_insert_eq.
    f_equal. lia.
  - simpl. rewrite lookup_insert_eq. f_equal. lia.
  - simpl. rewrite lookup_insert_eq. f_equal. lia.
  - simpl. rewrite Htb. simpl. rewrite Hta. by rewrite <- app_assoc.
Qed.

End RoundTrip.

Lemma buy_then_sell_restores_cash_witness :
  let e1 := Sample.env_at 1000 (Body (Some (Sample.quote "10.005"))) in
  let e2 := Sample.env_at 1010 HttpError in
  let w2 := (do_trade Sample.cfg (Sample.order false 1 "SYM") e2
               (do_trade Sample.cfg (Sample.order true 1 "SYM") e1 Sample.w_alice).2).2 in
  balances Sample.w_alice !! "alice" = Some 10000
  ∧ price_rounded_of (100050 # 10000) 1 ≤ 10000
  ∧ balances w2 !! "alice" = Some 10000
  ∧ holdings w2 !! ("alice", "SYM") = Some (default 0 (holdings Sample.w_alice !! ("alice", "SYM")))
  ∧ balances w2 !! DUSTACCT = Some (0 + 2 * dust_credit (100050 # 10000) 1).
Proof.
  cbv zeta.
  assert (balances Sample.w_alice !! "alice" = Some 10000) as Hb
    by (vm_compute; reflexivity).
  assert (price_rounded_of (100050 # 10000) 1 ≤ 10000) as Hle
    by (vm_compute; discriminate).
  split; [exact Hb|]. split; [exact Hle|].
  destruct (buy_then_sell_restores_cash Sample.cfg "alice" "SYM" 1 "#chan"
              (Sample.env_at 1000 (Body (Some (Sample.quote "10.005"))))
              (Sample.env_at 1010 HttpError) Sample.w_alice (100050 # 10000)%Q 10000 0)
    as (H1 & H2 & H3 & _); try (vm_compute; reflexivity); try exact Hb; try exact Hle.
  - vm_compute. discriminate.
  - vm_compute. discriminate.
  - split; [exact H1|]. split; [exact H2|exact H3].
Defined.

Section SortedReport.

Variable cfg : config.

Lemma string_leb_trans s1 s2 s3 :
  String.leb s1 s2 = true → String.leb s2 s3 = true → String.leb s1 s3 = true.
Proof.
  unfold String.leb.
  revert s2 s3. induction s1 as [|c1 s1 IH]; intros [|c2 s2] [|c3 s3]; simpl; try done.
  unfold Ascii.compare.
  destruct (N.compare_spec (N_of_ascii c1) (N_of_ascii c2)) as [H12|H12|H12];
    destruct (N.compare_spec (N_of_ascii c2) (N_of_ascii c3)) as [H23|H23|H23];
    try done.
  - rewrite H12, H23, N.compare_refl. apply IH.
  - rewrite H12. intros _ _. by apply N.compare_lt_iff in H23 as ->.
  - rewrite <- H23. intros _ _. by apply N.compare_lt_iff in H12 as ->.
  - intros _ _. assert (N_of_ascii c1 < N_of_ascii c3)%N as H13 by lia.
    by apply N.compare_lt_iff in H13 as ->.
Qed.

Lemma string_leb_total s1 s2 : String.leb s1 s2 = false → String.leb s2 s1 = true.
Proof.
  intros H. destruct (String.leb_total s1 s2) as [H'|H']; [congruence|done].
Qed.

(** The lines [report_rows] adds, in the order of the rows. *)
Lemma report_rows_lines n rows hv acc e w r w' :
  report_rows cfg n rows hv acc e w = (Ok r, w') →
  ∃ new, r.2 = acc ++ new
    ∧ (λ l, (hl_symbol l, hl_count l)) <$> new = (λ row, (row.1.2, row.2)) <$> rows.
Proof.
  revert hv acc w. induction rows as [|row rows IH]; intros hv acc w; simpl.
  - unfold ret. intros [= <- <-]. exists []. by rewrite app_nil_r.
  - unfold bind.
    destruct (get_price row.1.2 (rcachesecs cfg) e w) as [[v|x] w1]; [|done].
    destruct (to_decimal v e w1) as [[symprice|x] w2]; [|done].
    destruct (calc_user_avgbuy n row.1.2 e w2) as [[avgbuy|x] w3]; [|done].
    intros Hrest. apply IH in Hrest as (new & Hr & Hnew).
    eexists (_ :: new). rewrite Hr, <- app_assoc. split; [done|].
    rewrite !fmap_cons. by rewrite Hnew.
Qed.

(** X15. A report that [build_report] returns gives the cash as the balance
    in cents over 100, and one line for every holding of the account with
    a positive count and for no other, with that count, the lines being
    in non-decreasing order of symbol. *)
Theorem build_report_lines n e w data w' :
  build_report cfg n e w = (Ok data, w') →
  (∃ cents, balances w !! n = Some cents ∧ r_cash data = (inject_Z cents / 100)%Q)
  ∧ StronglySorted (λ a b, String.leb (hl_symbol a) (hl_symbol b) = true) (r_holdings data)
  ∧ (∀ s c, (∃ l, l ∈ r_holdings data ∧ hl_symbol l = s ∧ hl_count l = c)
            ↔ holdings w !! (n, s) = Some c ∧ 0 < c)
  ∧ length (r_holdings data)
    = length (filter (λ r : string * string * Z, 0 < r.2 ∧ r.1.1 = n)
                (map_to_list (holdings w))).
Proof.
  intros Hdata.
  unfold build_report, get_bal, get_latest_hist_bal, bind, get, ret, raise in Hdata.
  destruct (balances w !! n) as [cents|] eqn:Hbal; [|done].
  destruct (report_rows cfg n (select_holdings n (holdings w)) 0 [] e w)
    as [[acc|x] w1] eqn:Hrows; [|done].
  apply report_rows_lines in Hrows as (new & Hacc & Hnew). rewrite app_nil_l in Hacc.
  assert (r_cash data = (inject_Z cents / 100)%Q
          ∧ r_holdings data = sort_by symbol_asc acc.2) as [Hcash Hlines].
  { destruct (head _); by simplify_eq. }
  clear Hdata. rewrite Hlines, Hacc.
  assert (((λ l, (hl_symbol l, hl_count l)) <$> sort_by symbol_asc new)
          ≡ₚ ((λ row : string * string * Z, (row.1.2, row.2))
              <$> filter (λ r : string * string * Z, 0 < r.2 ∧ r.1.1 = n)
                    (map_to_list (holdings w)))) as Hperm.
  { rewrite sort_by_perm, Hnew. unfold select_holdings. by rewrite sort_by_perm. }
  split; [by exists cents|]. split; [|split].
  - apply (sort_by_sorted symbol_asc).
    + intros a b. apply string_leb_total.
    + intros a b c. apply string_leb_trans.
  - intros s c. split.
    + intros (l & Hin & <- & <-).
      assert ((hl_symbol l, hl_count l)
              ∈ ((λ l, (hl_symbol l, hl_count l)) <$> sort_by symbol_asc new)) as Hl.
      { apply list_elem_of_fmap. by exists l. }
      rewrite Hperm in Hl. apply list_elem_of_fmap in Hl as ([[n' s'] c'] & Heq & Hin').
      simpl in Heq. injection Heq as -> ->.
      apply list_elem_of_filter in Hin' as [[Hpos Hn] Hin']. simpl in *. subst n'.
      by apply elem_of_map_to_list in Hin'.
    + intros [Hh Hpos].
      assert ((s, c) ∈ ((λ l, (hl_symbol l, hl_count l)) <$> sort_by symbol_asc new)) as Hl.
      { rewrite Hperm. apply list_elem_of_fmap. exists (n, s, c). split; [done|].
        apply list_elem_of_filter. split; [done|]. by apply elem_of_map_to_list. }
      apply list_elem_of_fmap in Hl as (l & Heq & Hin). injection Heq as -> ->.
      by exists l.
  - apply Permutation_length in Hperm. by rewrite !length_fmap in Hperm.
Qed.

End SortedReport.

Lemma build_report_lines_witness :
  let e := Sample.env_at 1500 HttpError in
  ∃ data w',
    build_report Sample.cfg "alice" e Sample.w_bought = (Ok data, w')
    ∧ StronglySorted (λ a b, String.leb (hl_symbol a) (hl_symbol b) = true)
        (r_holdings data)
    ∧ length (r_holdings data)
      = length (filter (λ r : string * string * Z, 0 < r.2 ∧ r.1.1 = "alice")
                  (map_to_list (holdings Sample.w_bought))).
Proof.
  cbv zeta.
  destruct (build_report Sample.cfg "alice" (Sample.env_at 1500 HttpError) Sample.w_bought)
    as [[data|x] w'] eqn:Hb; [|vm_compute in Hb; discriminate].
  exists data, w'. split; [reflexivity|].
  destruct (build_report_lines Sample.cfg "alice" (Sample.env_at 1500 HttpError)
              Sample.w_bought data w' Hb) as (_ & Hs & _ & Hl).
  split; [exact Hs|exact Hl].
Defined.

Lemma held_symbols_are_cached_witness :
  let e := Sample.env_at 1000 (Body (Some (Sample.quote "10.00"))) in
  let evs := [(EBuy Sample.alice ["10"; "sym"], e); (ETrader, e)] in
  holdings (run_all Sample.cfg evs init) !! ("alice", "SYM") = Some 10
  ∧ is_Some (prices (run_all Sample.cfg evs init) !! "SYM").
Proof.
  cbv zeta.
  assert (holdings (run_all Sample.cfg
                      [(EBuy Sample.alice ["10"; "sym"],
                        Sample.env_at 1000 (Body (Some (Sample.quote "10.00"))));
                       (ETrader, Sample.env_at 1000 (Body (Some (Sample.quote "10.00"))))]
                      init) !! ("alice", "SYM") = Some 10) as Hh
    by (vm_compute; reflexivity).
  split; [exact Hh|].
  exact (held_symbols_are_cached Sample.cfg _ "alice" "SYM" 10 Hh).
Defined.

Lemma do_tasks_once_a_minute_witness :
  let e1 := Sample.env_at 5000 HttpError in
  let e2 := Sample.env_at 5030 HttpError in
  task_time Sample.w_bought ≤ now e1 - 60
  ∧ now e2 - 60 < now e1
  ∧ task_time (do_tasks Sample.cfg e1 Sample.w_bought).2 = now e1
  ∧ do_tasks Sample.cfg e2 (do_tasks Sample.cfg e1 Sample.w_bought).2
    = (Ok tt, (do_tasks Sample.cfg e1 Sample.w_bought).2).
Proof.
  cbv zeta.
  assert (task_time Sample.w_bought ≤ now (Sample.env_at 5000 HttpError) - 60) as Hdue
    by (vm_compute; discriminate).
  assert (now (Sample.env_at 5030 HttpError) - 60 < now (Sample.env_at 5000 HttpError))
    as Hsoon by (vm_compute; reflexivity).
  split; [exact Hdue|]. split; [exact Hsoon|].
  destruct (proj2 (do_tasks_once_a_minute Sample.cfg (Sample.env_at 5000 HttpError)
                     (Sample.env_at 5030 HttpError) Sample.w_bought) Hdue)
    as [Htime Hskip].
  split; [exact Htime|exact (Hskip Hsoon)].
Defined.

Lemma checksym_accepts_upper_case_witness :
  Py.is_ascii "brk-b" = true
  ∧ checksym "brk-b" = Some "BRK-B"
  ∧ "BRK-B" = Py.upper "brk-b"
  ∧ Py.upper "BRK-B" = "BRK-B"
  ∧ "BRK-B" ≠ ""
  ∧ (String.length "BRK-B" ≤ 12)%nat
  ∧ checksym "BRK-B" = Some "BRK-B".
Proof.
  assert (Py.is_ascii "brk-b" = true) as Ha by reflexivity.
  assert (checksym "brk-b" = Some "BRK-B") as H by (vm_compute; reflexivity).
  split; [exact Ha|]. split; [exact H|].
  exact (checksym_accepts_upper_case "brk-b" "BRK-B" Ha H).
Defined.

Lemma cmd_trade_only_queues_witness :
  let e := Sample.env_at 1000 HttpError in
  let w' := (cmd_trade Sample.cfg true Sample.alice ["3"; "brk-b"] e Sample.w_alice).2 in
  (∀ a1, ["3"; "brk-b"] !! 1%nat = Some a1 → Py.is_ascii a1 = true)
  ∧ outbox w' = outbox Sample.w_alice
  ∧ balances w' !! "alice" = Some 10000
  ∧ (asyncq w' = asyncq Sample.w_alice
     ∨ ∃ t, asyncq w' = asyncq Sample.w_alice ++ [QTrade t]
         ∧ nick t = "alice" ∧ buy t = true ∧ 0 < amount t
         ∧ symbol t = Py.upper (symbol t) ∧ symbol t ≠ ""
         ∧ (String.length (symbol t) ≤ 12)%nat
         ∧ (replyto t = "#chan" ∨ replyto t = "alice")).
Proof.
  cbv zeta.
  assert (∀ a1, ["3"; "brk-b"] !! 1%nat = Some a1 → Py.is_ascii a1 = true) as Ha.
  { intros a1 H. injection H as <-. reflexivity. }
  split; [exact Ha|].
  destruct (cmd_trade_only_queues Sample.cfg true Sample.alice ["3"; "brk-b"]
              (Sample.env_at 1000 HttpError) Sample.w_alice Ha)
    as ((Ho & _) & _ & Hb & Hq).
  split; [exact Ho|]. split; [exact Hb|exact Hq].
Defined.
